(** * The emulator control-plane API server (server/emulator.go)

    A shallow embedding of the HTTP handlers of [EmulatorAPIServer] and the
    properties of their status mapping and of their use of the emulation
    engine.

    The handlers are Go methods that receive an [http.ResponseWriter] and an
    [*http.Request] and talk to the emulation engine through
    [m.backend].  They are embedded as computations in a small state monad
    over a [World]: the engine state, the log of the engine operations that
    were invoked, and the response writer.  The engine, the JSON encoder and
    the error classification of flow-go are collaborators that live outside
    server/emulator.go; they are taken as parameters of the development. *)

From Stdlib Require Import ZArith String Ascii List Lia Bool.
From stdpp Require Import base option gmap strings.

Local Open Scope string_scope.
Local Open Scope Z_scope.

(** ** Values returned together with a Go [error] *)

(** A Go result pair [(v, err)]: either the value ([err == nil]) or the
    error. *)
Inductive result (X A : Type) : Type :=
| Ok (a : A)
| Err (e : X).
Arguments Ok {X A} a.
Arguments Err {X A} e.

Definition is_ok {X A} (r : result X A) : bool :=
  match r with Ok _ => true | Err _ => false end.

(** ** HTTP status codes (net/http) *)

Module http.
Definition StatusOK : Z := 200.
Definition StatusBadRequest : Z := 400.
Definition StatusNotFound : Z := 404.
Definition StatusConflict : Z := 409.
Definition StatusInternalServerError : Z := 500.

(** The 4xx class of RFC 9110: the client sent a bad request. *)
Definition isClientError (code : Z) : bool :=
  (400 <=? code) && (code <? 500).
End http.

(** ** Machine integers *)

Module machine.
Definition maxUint64 : Z := 2 ^ 64 - 1.
Definition maxInt : Z := 2 ^ 63 - 1.

Definition isUint64 (n : Z) : Prop := 0 <= n <= maxUint64.

(** The conversion [int(x)] of a [uint64] on a target whose [int] has 64
    bits (amd64, arm64): the bit pattern is kept and read in two's
    complement. *)
Definition toInt (x : Z) : Z :=
  let u := x mod 2 ^ 64 in
  if u <? 2 ^ 63 then u else u - 2 ^ 64.
End machine.

(** ** strconv.ParseUint(s, 10, 64) *)

Module strconv.
Inductive NumError : Type := ErrSyntax | ErrRange.

(** [cutoff] is the smallest number such that [cutoff * 10 > maxUint64]. *)
Definition cutoff : Z := machine.maxUint64 / 10 + 1.
Definition maxVal : Z := 2 ^ 64 - 1.

Definition isDigit (c : ascii) : bool :=
  (48 <=? Z.of_nat (nat_of_ascii c)) && (Z.of_nat (nat_of_ascii c) <=? 57).

Definition digitVal (c : ascii) : Z := Z.of_nat (nat_of_ascii c) - 48.

(** The loop over the bytes of [s] with the accumulator [n].  In base 10 a
    byte that is not a decimal digit (a letter has a value of at least 10,
    an underscore is accepted in base 0 only) is a syntax error. *)
Fixpoint parseLoop (s : string) (n : Z) : Z * option NumError :=
  match s with
  | EmptyString => (n, None)
  | String c rest =>
      if negb (isDigit c) then (0, Some ErrSyntax)
      else if cutoff <=? n then (maxVal, Some ErrRange)
      else
        let n10 := n * 10 in
        let n1 := (n10 + digitVal c) mod 2 ^ 64 in
        if (n1 <? n10) || (maxVal <? n1) then (maxVal, Some ErrRange)
        else parseLoop rest n1
  end.

Definition ParseUint (s : string) : Z * option NumError :=
  if String.eqb s "" then (0, Some ErrSyntax) else parseLoop s 0.
End strconv.

(** ** slices.Contains *)

Module slices.
Fixpoint Contains (s : list string) (v : string) : bool :=
  match s with
  | [] => false
  | x :: rest => if String.eqb v x then true else Contains rest v
  end.
End slices.

(** ** Requests and response writers *)

(** The parts of an [*http.Request] the handlers read: the parsed form
    ([url.Values], a map from a key to its values) and the route variables
    that [mux.Vars] returns. *)
Record Request : Type := mkRequest {
  Form : gmap string (list string);
  Vars : gmap string string
}.

(** [r.FormValue(key)]: the first value of [key], or the empty string. *)
Definition FormValue (r : Request) (key : string) : string :=
  match Form r !! key with
  | Some (v :: _) => v
  | _ => ""
  end.

(** [mux.Vars(r)[key]]: a missing key reads as the zero value. *)
Definition muxVar (r : Request) (key : string) : string :=
  default "" (Vars r !! key).

(** The height parameter of a rollback request is missing or is not the
    decimal text of an unsigned 64-bit integer. *)
Definition malformedHeight (r : Request) : Prop :=
  FormValue r "height" = "" \/
  snd (strconv.ParseUint (FormValue r "height")) <> None.

(** The observable state of an [http.ResponseWriter]. *)
Record ResponseWriter : Type := mkResponseWriter {
  Header : gmap string string;
  wroteHeader : bool;
  status : Z;
  written : string
}.

Definition newResponseWriter : ResponseWriter :=
  mkResponseWriter ∅ false 0 "".

(** [w.Header().Set(k, v)] *)
Definition HeaderSet (k v : string) (w : ResponseWriter) : ResponseWriter :=
  mkResponseWriter (<[k := v]> (Header w)) (wroteHeader w) (status w) (written w).

(** [w.WriteHeader(code)]: only the first call sets the status line. *)
Definition WriteHeader (code : Z) (w : ResponseWriter) : ResponseWriter :=
  if wroteHeader w then w
  else mkResponseWriter (Header w) true code (written w).

(** [w.Write(b)]: sends the status line with 200 if none was sent yet. *)
Definition Write (b : string) (w : ResponseWriter) : ResponseWriter :=
  let w' := WriteHeader http.StatusOK w in
  mkResponseWriter (Header w') (wroteHeader w') (status w') (String.append (written w') b).

(** The status the client receives once the handler has returned: a handler
    that never wrote a status line answers 200. *)
Definition StatusCode (w : ResponseWriter) : Z :=
  if wroteHeader w then status w else http.StatusOK.

(** ** Chain data handed out by the engine *)

Module flow.
(** A block header as far as the handlers read it: the height (a
    [uint64]) and the string form of its identifier, [ID().String()]. *)
Record Header : Type := mkHeader {
  Height : Z;
  ID : string
}.

Record Block : Type := mkBlock {
  BlockHeader : Header
}.
End flow.

Record BlockResponse : Type := mkBlockResponse {
  Height : Z; BlockId : string; Context : string
}.

(** ** The collaborators of the server *)

(** What the handlers consume from outside server/emulator.go: the engine
    behind [m.backend] and [m.backend.Emulator()], flow-go's error
    classification, the SDK's address decoding and encoding/json.

    The engine has a state of type [Emulator].  The reading operations
    return a value or an error and leave the state alone; the mutating
    operations return an optional error (Go's [nil] is [None]) and the next
    state.  [backend_CommitBlock] is invoked as a call statement: whatever
    the commit yields never reaches the handler, and the outcome is kept here
    only so that a failed commit can be spoken about. *)
Class Collaborators : Type := {
  error : Type;
  Address : Type;
  AccountStorage : Type;
  Emulator : Type;
  backend_CommitBlock : Emulator -> option error * Emulator;
  backend_GetLatestBlockHeader : Emulator -> result error flow.Header;
  backend_GetLatestBlock : Emulator -> result error flow.Block;
  backend_GetAccountStorage : Address -> Emulator -> result error AccountStorage;
  emulator_RollbackToBlockHeight : Z -> Emulator -> option error * Emulator;
  emulator_Snapshots : Emulator -> result error (list string);
  emulator_LoadSnapshot : string -> Emulator -> option error * Emulator;
  emulator_CreateSnapshot : string -> Emulator -> option error * Emulator;
  fvmerrors_IsAccountNotFoundError : error -> bool;
  flowsdk_HexToAddress : string -> Address;
  json_Marshal_BlockResponse : BlockResponse -> result error string;
  json_Marshal_Snapshots : list string -> result error string;
  json_Marshal_AccountStorage : AccountStorage -> result error string
}.

Section Handlers.
Context `{Collaborators}.

(** The engine operations a handler can invoke, as they are logged. *)
Inductive Call : Type :=
| CallCommitBlock
| CallGetLatestBlockHeader
| CallGetLatestBlock
| CallGetAccountStorage (addr : Address)
| CallRollbackToBlockHeight (height : Z)
| CallSnapshots
| CallLoadSnapshot (name : string)
| CallCreateSnapshot (name : string).

Record World : Type := mkWorld {
  engine : Emulator;
  invoked : list Call;
  w : ResponseWriter
}.

(** A handler step: reads and updates the world and yields a value. *)
Definition Handler (A : Type) : Type := World -> A * World.

#[local] Instance Handler_ret : MRet Handler := fun A a σ => (a, σ).
#[local] Instance Handler_bind : MBind Handler :=
  fun A B f m σ => let (a, σ') := m σ in f a σ'.

(** A reading engine operation: logged, the engine state is kept. *)
Definition query {A : Type} (c : Call) (f : Emulator -> A) : Handler A :=
  fun σ => (f (engine σ), mkWorld (engine σ) (invoked σ ++ [c]) (w σ)).

(** A mutating engine operation: logged, the engine state is replaced. *)
Definition mutate (c : Call) (f : Emulator -> option error * Emulator)
  : Handler (option error) :=
  fun σ => let (err, e') := f (engine σ) in
           (err, mkWorld e' (invoked σ ++ [c]) (w σ)).

(** An operation of the response writer. *)
Definition respond (f : ResponseWriter -> ResponseWriter) : Handler unit :=
  fun σ => (tt, mkWorld (engine σ) (invoked σ) (f (w σ))).

Definition newline : string := String (ascii_of_nat 10) "".

(** [json.NewEncoder(w).Encode(v)]: the value is marshalled first; only then
    are its bytes, followed by a newline, written to [w]. *)
Definition Encode {T : Type} (marshal : T -> result error string) (v : T)
  : Handler (option error) :=
  match marshal v with
  | Err e => mret (Some e)
  | Ok b => respond (Write (String.append b newline)) ;; mret None
  end.

Definition CommitBlock (r : Request) : Handler unit :=
  respond (HeaderSet "Content-Type" "application/json") ;;
  mutate CallCommitBlock backend_CommitBlock ;;
  res ← query CallGetLatestBlockHeader backend_GetLatestBlockHeader ;
  match res with
  | Err _ => respond (WriteHeader http.StatusInternalServerError)
  | Ok header =>
      let blockResponse :=
        mkBlockResponse (machine.toInt (flow.Height header)) (flow.ID header) "" in
      err ← Encode json_Marshal_BlockResponse blockResponse ;
      match err with
      | Some _ => respond (WriteHeader http.StatusInternalServerError)
      | None => mret tt
      end
  end.

Definition Rollback (r : Request) : Handler unit :=
  respond (HeaderSet "Content-Type" "application/json") ;;
  if String.eqb (FormValue r "height") "" then
    respond (WriteHeader http.StatusInternalServerError)
  else
    let (height, err) := strconv.ParseUint (FormValue r "height") in
    match err with
    | Some _ => respond (WriteHeader http.StatusInternalServerError)
    | None =>
        err ← mutate (CallRollbackToBlockHeight height)
                (emulator_RollbackToBlockHeight height) ;
        match err with
        | Some _ => respond (WriteHeader http.StatusInternalServerError)
        | None => mret tt
        end
    end.

Definition SnapshotList (r : Request) : Handler unit :=
  respond (HeaderSet "Content-Type" "application/json") ;;
  res ← query CallSnapshots emulator_Snapshots ;
  match res with
  | Err _ => respond (WriteHeader http.StatusInternalServerError)
  | Ok snapshots =>
      match json_Marshal_Snapshots snapshots with
      | Err _ => respond (WriteHeader http.StatusInternalServerError)
      | Ok bytes => respond (WriteHeader http.StatusOK) ;; respond (Write bytes)
      end
  end.

Definition latestBlockResponse (name : string) : Handler unit :=
  res ← query CallGetLatestBlock backend_GetLatestBlock ;
  match res with
  | Err _ => respond (WriteHeader http.StatusInternalServerError)
  | Ok block =>
      let blockResponse :=
        mkBlockResponse (machine.toInt (flow.Height (flow.BlockHeader block)))
                        (flow.ID (flow.BlockHeader block)) name in
      match json_Marshal_BlockResponse blockResponse with
      | Err _ => respond (WriteHeader http.StatusInternalServerError)
      | Ok bytes => respond (WriteHeader http.StatusOK) ;; respond (Write bytes)
      end
  end.

Definition SnapshotJump (r : Request) : Handler unit :=
  respond (HeaderSet "Content-Type" "application/json") ;;
  let name := muxVar r "name" in
  res ← query CallSnapshots emulator_Snapshots ;
  match res with
  | Err _ => respond (WriteHeader http.StatusInternalServerError)
  | Ok snapshots =>
      if negb (slices.Contains snapshots name) then
        respond (WriteHeader http.StatusNotFound)
      else
        err ← mutate (CallLoadSnapshot name) (emulator_LoadSnapshot name) ;
        match err with
        | Some _ => respond (WriteHeader http.StatusInternalServerError)
        | None => latestBlockResponse name
        end
  end.

Definition SnapshotCreate (r : Request) : Handler unit :=
  respond (HeaderSet "Content-Type" "application/json") ;;
  let name := FormValue r "name" in
  if String.eqb name "" then
    respond (WriteHeader http.StatusInternalServerError)
  else
    res ← query CallSnapshots emulator_Snapshots ;
    match res with
    | Err _ => respond (WriteHeader http.StatusInternalServerError)
    | Ok snapshots =>
        if slices.Contains snapshots name then
          respond (WriteHeader http.StatusConflict)
        else
          err ← mutate (CallCreateSnapshot name) (emulator_CreateSnapshot name) ;
          match err with
          | Some _ => respond (WriteHeader http.StatusInternalServerError)
          | None => latestBlockResponse name
          end
    end.

Definition Storage (r : Request) : Handler unit :=
  respond (HeaderSet "Content-Type" "application/json") ;;
  let address := muxVar r "address" in
  let addr := flowsdk_HexToAddress address in
  res ← query (CallGetAccountStorage addr) (backend_GetAccountStorage addr) ;
  match res with
  | Err err =>
      if fvmerrors_IsAccountNotFoundError err then
        respond (WriteHeader http.StatusNotFound)
      else
        respond (WriteHeader http.StatusInternalServerError)
  | Ok accountStorage =>
      err ← Encode json_Marshal_AccountStorage accountStorage ;
      match err with
      | Some _ => respond (WriteHeader http.StatusInternalServerError)
      | None => mret tt
      end
  end.

(** Serving one request: the handler runs on the engine state [e] with an
    empty log and a fresh response writer; the result is the world it
    leaves. *)
Definition serve (h : Request -> Handler unit) (e : Emulator) (r : Request)
  : World :=
  snd (h r (mkWorld e [] newResponseWriter)).

End Handlers.

(** ** A simulated engine

    A small engine with fault injection that implements the collaborators:
    the chain is represented by the height of its head, a snapshot records
    the height at which it was taken, and one operation can be made to
    fail.  It instantiates the general statements at concrete requests. *)

Module sim.
Inductive SimError : Type :=
| AccountNotFound
| Failure (msg : string).

Inductive Fault : Type :=
| NoFault
| FailCommit
| FailHead
| FailSnapshots
| FailStorage.

Record Sim : Type := mkSim {
  head : Z;
  snaps : list (string * Z);
  accounts : list (string * string);
  fault : Fault
}.

Definition isFault (f g : Fault) : bool :=
  match f, g with
  | NoFault, NoFault | FailCommit, FailCommit | FailHead, FailHead
  | FailSnapshots, FailSnapshots | FailStorage, FailStorage => true
  | _, _ => false
  end.

Definition blockID (height : Z) : string :=
  String.append "block-" (pretty.pretty height).

Definition headerOf (s : Sim) : flow.Header :=
  flow.mkHeader (head s) (blockID (head s)).

Definition commit (s : Sim) : option SimError * Sim :=
  if isFault (fault s) FailCommit then (Some (Failure "commit"), s)
  else (None, mkSim (head s + 1) (snaps s) (accounts s) (fault s)).

Definition latestHeader (s : Sim) : result SimError flow.Header :=
  if isFault (fault s) FailHead then Err (Failure "head")
  else Ok (headerOf s).

Definition latestBlock (s : Sim) : result SimError flow.Block :=
  if isFault (fault s) FailHead then Err (Failure "head")
  else Ok (flow.mkBlock (headerOf s)).

Fixpoint lookup {V : Type} (k : string) (l : list (string * V)) : option V :=
  match l with
  | [] => None
  | (k', v) :: rest => if String.eqb k k' then Some v else lookup k rest
  end.

Definition storageOf (addr : string) (s : Sim) : result SimError string :=
  if isFault (fault s) FailStorage then Err (Failure "storage")
  else match lookup addr (accounts s) with
       | Some v => Ok v
       | None => Err AccountNotFound
       end.

Definition rollback (height : Z) (s : Sim) : option SimError * Sim :=
  if head s <? height then (Some (Failure "height"), s)
  else (None, mkSim height (snaps s) (accounts s) (fault s)).

Definition listSnapshots (s : Sim) : result SimError (list string) :=
  if isFault (fault s) FailSnapshots then Err (Failure "snapshots")
  else Ok (map fst (snaps s)).

Definition load (name : string) (s : Sim) : option SimError * Sim :=
  match lookup name (snaps s) with
  | Some h => (None, mkSim h (snaps s) (accounts s) (fault s))
  | None => (Some (Failure "snapshot"), s)
  end.

Definition create (name : string) (s : Sim) : option SimError * Sim :=
  (None, mkSim (head s) (snaps s ++ [(name, head s)]) (accounts s) (fault s)).

Definition isAccountNotFound (e : SimError) : bool :=
  match e with AccountNotFound => true | Failure _ => false end.

Definition quote : string := String (ascii_of_nat 34) "".

Definition quoted (s : string) : string :=
  String.append quote (String.append s quote).

(** The JSON text of a block response whose strings need no escaping; an
    empty context is left out ([omitempty]). *)
Definition marshalBlockResponse (b : BlockResponse)
  : result SimError string :=
  Ok (String.concat ""
        [ "{"; quoted "height"; ":"; pretty.pretty (Height b); ",";
          quoted "blockId"; ":"; quoted (BlockId b);
          (if String.eqb (Context b) "" then ""
           else String.concat "" [","; quoted "context"; ":"; quoted (Context b)]);
          "}" ]).

Definition marshalSnapshots (l : list string) : result SimError string :=
  Ok (String.concat "" ["["; String.concat "," (map quoted l); "]"]).

Definition marshalStorage (v : string) : result SimError string :=
  if String.eqb v "" then Err (Failure "json") else Ok (quoted v).

#[global] Instance collaborators : Collaborators := {|
  error := SimError;
  Address := string;
  AccountStorage := string;
  Emulator := Sim;
  backend_CommitBlock := commit;
  backend_GetLatestBlockHeader := latestHeader;
  backend_GetLatestBlock := latestBlock;
  backend_GetAccountStorage := storageOf;
  emulator_RollbackToBlockHeight := rollback;
  emulator_Snapshots := listSnapshots;
  emulator_LoadSnapshot := load;
  emulator_CreateSnapshot := create;
  fvmerrors_IsAccountNotFoundError := isAccountNotFound;
  flowsdk_HexToAddress := fun s => s;
  json_Marshal_BlockResponse := marshalBlockResponse;
  json_Marshal_Snapshots := marshalSnapshots;
  json_Marshal_AccountStorage := marshalStorage
|}.

(** The same engine behind an encoder that rejects every block response. *)
Definition brokenEncoder : Collaborators := {|
  error := SimError;
  Address := string;
  AccountStorage := string;
  Emulator := Sim;
  backend_CommitBlock := commit;
  backend_GetLatestBlockHeader := latestHeader;
  backend_GetLatestBlock := latestBlock;
  backend_GetAccountStorage := storageOf;
  emulator_RollbackToBlockHeight := rollback;
  emulator_Snapshots := listSnapshots;
  emulator_LoadSnapshot := load;
  emulator_CreateSnapshot := create;
  fvmerrors_IsAccountNotFoundError := isAccountNotFound;
  flowsdk_HexToAddress := fun s => s;
  json_Marshal_BlockResponse := fun _ => Err (Failure "json");
  json_Marshal_Snapshots := marshalSnapshots;
  json_Marshal_AccountStorage := marshalStorage
|}.

(** A request that carries one form value. *)
Definition formRequest (key value : string) : Request :=
  mkRequest {[ key := [value] ]} ∅.

(** A request routed with one path variable. *)
Definition pathRequest (key value : string) : Request :=
  mkRequest ∅ {[ key := value ]}.

Definition emptyRequest : Request := mkRequest ∅ ∅.

(** An engine at height 5 with the snapshot "checkpoint" taken at height 3
    and one account. *)
Definition engine0 (f : Fault) : Sim :=
  mkSim 5 [("checkpoint", 3)] [("01", "{}")] f.
End sim.


(** ** The decimal reading of a height *)

Module decimal.
(** Every byte of [s] is a decimal digit. *)
Fixpoint allDigits (s : string) : bool :=
  match s with
  | EmptyString => true
  | String c rest => strconv.isDigit c && allDigits rest
  end.

(** The number that the digits of [s] denote after the digits read so far
    gave [n]. *)
Fixpoint valueFrom (s : string) (n : Z) : Z :=
  match s with
  | EmptyString => n
  | String c rest => valueFrom rest (n * 10 + strconv.digitVal c)
  end.

Definition value (s : string) : Z := valueFrom s 0.
End decimal.

(** ** The blockchain behind [m.server]

    [Config], [CodeCoverage] and [ResetCodeCoverage] go to
    [m.server.blockchain] rather than to [m.backend].  The operations are
    given over a state type [chain] chosen by the user of the class: the
    server below takes it to be the state the backend works on, since
    nothing in the source keeps the two apart. *)
Class Blockchain (chain : Type) : Type := {
  CoverageReport : Type;
  jsonError : Type;
  blockchain_ServiceKey : chain -> string;
  blockchain_CoverageReport : chain -> CoverageReport;
  blockchain_ResetCoverageReport : chain -> chain;
  json_MarshalIndent_ConfigInfo : string -> result jsonError string;
  json_Marshal_CoverageReport : CoverageReport -> result jsonError string
}.

Section ChainHandlers.
Context {chain : Type} `{Blockchain chain}.

Record ChainWorld : Type := mkChainWorld {
  blockchain : chain;
  cw : ResponseWriter
}.

(** [Config] drops the error of [json.MarshalIndent]: on an error the
    slice is nil and [w.Write] sends no byte. *)
Definition Config (r : Request) (σ : ChainWorld) : ChainWorld :=
  let c := blockchain_ServiceKey (blockchain σ) in
  let s := match json_MarshalIndent_ConfigInfo c with
           | Ok s => s
           | Err _ => ""
           end in
  mkChainWorld (blockchain σ) (Write s (cw σ)).

Definition CodeCoverage (r : Request) (σ : ChainWorld) : ChainWorld :=
  let w1 := HeaderSet "Content-Type" "application/json" (cw σ) in
  match json_Marshal_CoverageReport
          (blockchain_CoverageReport (blockchain σ)) with
  | Ok b => mkChainWorld (blockchain σ) (Write (String.append b newline) w1)
  | Err _ =>
      mkChainWorld (blockchain σ) (WriteHeader http.StatusInternalServerError w1)
  end.

Definition ResetCodeCoverage (r : Request) (σ : ChainWorld) : ChainWorld :=
  let w1 := HeaderSet "Content-Type" "application/json" (cw σ) in
  mkChainWorld (blockchain_ResetCoverageReport (blockchain σ))
               (WriteHeader http.StatusOK w1).

Definition serveChain (h : Request -> ChainWorld -> ChainWorld) (c : chain)
    (r : Request) : ChainWorld :=
  h r (mkChainWorld c newResponseWriter).

End ChainHandlers.

(** ** The router built by [NewEmulatorAPIServer] *)

Module mux.
(** A piece of a path template: a literal segment or a variable
    [{name}], which stands for one segment matching [[^/]+]. *)
Inductive Piece : Type :=
| Lit (s : string)
| Var (name : string).

Inductive HandlerName : Type :=
| hCommitBlock | hRollback | hSnapshotCreate | hSnapshotList | hSnapshotJump
| hStorage | hConfig | hCodeCoverage | hResetCodeCoverage.

(** A route: its path template, the methods it is restricted to (none:
    every method) and its handler. *)
Record Route : Type := mkRoute {
  template : list Piece;
  methods : list string;
  handler : HandlerName
}.

Fixpoint hasSlash (s : string) : bool :=
  match s with
  | EmptyString => false
  | String c rest => Ascii.eqb c "/"%char || hasSlash rest
  end.

(** A segment of a path that the router does not redirect: not empty, not
    a dot segment. *)
Definition cleanSegment (x : string) : bool :=
  negb (String.eqb x "") && negb (String.eqb x ".")
  && negb (String.eqb x "..") && negb (hasSlash x).

(** The path matcher of a route, collecting the variables. *)
Fixpoint matchPath (t : list Piece) (path : list string)
    (vars : gmap string string) : option (gmap string string) :=
  match t, path with
  | [], [] => Some vars
  | Lit s :: t', x :: path' =>
      if String.eqb s x then matchPath t' path' vars else None
  | Var n :: t', x :: path' =>
      if negb (String.eqb x "") && negb (hasSlash x)
      then matchPath t' path' (<[n := x]> vars)
      else None
  | _, _ => None
  end.

(** The method matcher of a route. *)
Definition matchMethod (ms : list string) (method : string) : bool :=
  match ms with
  | [] => true
  | _ => slices.Contains ms method
  end.

(** The routes are tried in the order of their registration; the first one
    whose path and method match serves the request. *)
Fixpoint firstMatch (rs : list Route) (method : string) (path : list string)
  : option (HandlerName * gmap string string) :=
  match rs with
  | [] => None
  | r :: rest =>
      match matchPath (template r) path ∅ with
      | Some vars =>
          if matchMethod (methods r) method then Some (handler r, vars)
          else firstMatch rest method path
      | None => firstMatch rest method path
      end
  end.
End mux.

(** The route table, in the order of the [HandleFunc] calls. *)
Definition NewEmulatorAPIServer : list mux.Route :=
  [ mux.mkRoute [mux.Lit "emulator"; mux.Lit "newBlock"] [] mux.hCommitBlock;
    mux.mkRoute [mux.Lit "emulator"; mux.Lit "rollback"] ["POST"] mux.hRollback;
    mux.mkRoute [mux.Lit "emulator"; mux.Lit "snapshots"] ["POST"]
      mux.hSnapshotCreate;
    mux.mkRoute [mux.Lit "emulator"; mux.Lit "snapshots"] ["GET"]
      mux.hSnapshotList;
    mux.mkRoute [mux.Lit "emulator"; mux.Lit "snapshots"; mux.Var "name"]
      ["PUT"] mux.hSnapshotJump;
    mux.mkRoute [mux.Lit "emulator"; mux.Lit "storages"; mux.Var "address"] []
      mux.hStorage;
    mux.mkRoute [mux.Lit "emulator"; mux.Lit "config"] [] mux.hConfig;
    mux.mkRoute [mux.Lit "emulator"; mux.Lit "codeCoverage"] ["GET"]
      mux.hCodeCoverage;
    mux.mkRoute [mux.Lit "emulator"; mux.Lit "codeCoverage"; mux.Lit "reset"]
      ["PUT"] mux.hResetCodeCoverage ].

(** An incoming request before routing: the method, the segments of the
    URL path and the form values. *)
Record Incoming : Type := mkIncoming {
  Method : string;
  Path : list string;
  Values : gmap string (list string)
}.

(** The route that serves a request, if one does.  A path with an empty
    segment (a doubled or trailing slash) or a dot segment is answered by
    the router itself, with a redirect or with not-found, and reaches no
    handler; so does a request that no route matches. *)
Definition routeOf (i : Incoming) : option (mux.HandlerName * Request) :=
  if forallb mux.cleanSegment (Path i) then
    match mux.firstMatch NewEmulatorAPIServer (Method i) (Path i) with
    | Some (h, vars) => Some (h, mkRequest (Values i) vars)
    | None => None
    end
  else None.

(** What the route table says of a request, handler by handler. *)
Definition routed (i : Incoming) (h : mux.HandlerName) (r : Request) : Prop :=
  match h with
  | mux.hCommitBlock =>
      Path i = ["emulator"; "newBlock"] /\ r = mkRequest (Values i) ∅
  | mux.hRollback =>
      Method i = "POST" /\ Path i = ["emulator"; "rollback"] /\
      r = mkRequest (Values i) ∅
  | mux.hSnapshotCreate =>
      Method i = "POST" /\ Path i = ["emulator"; "snapshots"] /\
      r = mkRequest (Values i) ∅
  | mux.hSnapshotList =>
      Method i = "GET" /\ Path i = ["emulator"; "snapshots"] /\
      r = mkRequest (Values i) ∅
  | mux.hSnapshotJump =>
      Method i = "PUT" /\
      exists name, Path i = ["emulator"; "snapshots"; name] /\
                   mux.cleanSegment name = true /\
                   r = mkRequest (Values i) {[ "name" := name ]}
  | mux.hStorage =>
      exists address, Path i = ["emulator"; "storages"; address] /\
                      mux.cleanSegment address = true /\
                      r = mkRequest (Values i) {[ "address" := address ]}
  | mux.hConfig =>
      Path i = ["emulator"; "config"] /\ r = mkRequest (Values i) ∅
  | mux.hCodeCoverage =>
      Method i = "GET" /\ Path i = ["emulator"; "codeCoverage"] /\
      r = mkRequest (Values i) ∅
  | mux.hResetCodeCoverage =>
      Method i = "PUT" /\ Path i = ["emulator"; "codeCoverage"; "reset"] /\
      r = mkRequest (Values i) ∅
  end.


Section Server.
Context `{Collaborators} `{Blockchain Emulator}.

(** What a request leaves behind: the state of the emulator, the
    operations of [m.backend] invoked, in order, and the response of the
    handler that ran ([None] when the router answered by itself).

    [m.backend] and [m.server.blockchain] are two handles on the emulator
    the server runs, so the handlers of both act on one state: what a
    commit does to the coverage report, or a coverage reset to what the
    backend reads next, is up to the operations and is not fixed here. *)
Record Outcome : Type := mkOutcome {
  stateAfter : Emulator;
  operations : list Call;
  response : option ResponseWriter
}.

Definition viaBackend (h : Request -> Handler unit) (e : Emulator)
    (r : Request) : Outcome :=
  let σ := serve h e r in
  mkOutcome (engine σ) (invoked σ) (Some (w σ)).

(** The handlers on [m.server.blockchain] call no operation of
    [m.backend]; the state they leave is the one the next request finds. *)
Definition viaChain (h : Request -> ChainWorld -> ChainWorld) (e : Emulator)
    (r : Request) : Outcome :=
  let σ := serveChain h e r in
  mkOutcome (blockchain σ) [] (Some (cw σ)).

(** [m.router.ServeHTTP(w, r)] *)
Definition ServeHTTP (e : Emulator) (i : Incoming) : Outcome :=
  match routeOf i with
  | None => mkOutcome e [] None
  | Some (h, r) =>
      match h with
      | mux.hCommitBlock => viaBackend CommitBlock e r
      | mux.hRollback => viaBackend Rollback e r
      | mux.hSnapshotCreate => viaBackend SnapshotCreate e r
      | mux.hSnapshotList => viaBackend SnapshotList e r
      | mux.hSnapshotJump => viaBackend SnapshotJump e r
      | mux.hStorage => viaBackend Storage e r
      | mux.hConfig => viaChain Config e r
      | mux.hCodeCoverage => viaChain CodeCoverage e r
      | mux.hResetCodeCoverage => viaChain ResetCodeCoverage e r
      end
  end.

End Server.

Section CallKinds.
Context `{Collaborators}.

(** The engine operations that can change the engine state. *)
Definition isMutation (c : Call) : bool :=
  match c with
  | CallCommitBlock | CallRollbackToBlockHeight _ | CallLoadSnapshot _
  | CallCreateSnapshot _ => true
  | _ => false
  end.

(** The six handlers that talk to [m.backend]. *)
Definition backendHandlers : list (Request -> Handler unit) :=
  [CommitBlock; Rollback; SnapshotList; SnapshotJump; SnapshotCreate; Storage].

End CallKinds.

Module simchain.
(** A blockchain whose coverage report is a list of hit counts. *)
Record SimChain : Type := mkSimChain {
  key : string;
  hits : list (string * Z)
}.

Definition report (c : SimChain) : list (string * Z) := hits c.

Definition reset (c : SimChain) : SimChain :=
  mkSimChain (key c) (map (fun p => (fst p, 0)) (hits c)).

Definition marshalConfig (k : string) : result unit string :=
  if String.eqb k "" then Err tt else Ok (sim.quoted k).

Definition marshalReport (l : list (string * Z)) : result unit string :=
  Ok (String.concat ","
        (map (fun p => String.append (fst p)
                         (String.append ":" (pretty.pretty (snd p)))) l)).

#[global] Instance blockchain : Blockchain SimChain := {|
  CoverageReport := list (string * Z);
  jsonError := unit;
  blockchain_ServiceKey := key;
  blockchain_CoverageReport := report;
  blockchain_ResetCoverageReport := reset;
  json_MarshalIndent_ConfigInfo := marshalConfig;
  json_Marshal_CoverageReport := marshalReport
|}.

Definition chain0 : SimChain := mkSimChain "abcd" [("a.cdc", 3); ("b.cdc", 1)].
End simchain.


Module simfail.
(** The simulated engine with snapshot operations that always fail and leave
    the state alone. *)
Definition refuse (what name : string) (s : sim.Sim)
  : option sim.SimError * sim.Sim :=
  (Some (sim.Failure what), s).

Definition collaborators : Collaborators := {|
  error := sim.SimError;
  Address := string;
  AccountStorage := string;
  Emulator := sim.Sim;
  backend_CommitBlock := sim.commit;
  backend_GetLatestBlockHeader := sim.latestHeader;
  backend_GetLatestBlock := sim.latestBlock;
  backend_GetAccountStorage := sim.storageOf;
  emulator_RollbackToBlockHeight := sim.rollback;
  emulator_Snapshots := sim.listSnapshots;
  emulator_LoadSnapshot := refuse "load";
  emulator_CreateSnapshot := refuse "create";
  fvmerrors_IsAccountNotFoundError := sim.isAccountNotFound;
  flowsdk_HexToAddress := fun s => s;
  json_Marshal_BlockResponse := sim.marshalBlockResponse;
  json_Marshal_Snapshots := sim.marshalSnapshots;
  json_Marshal_AccountStorage := sim.marshalStorage
|}.
End simfail.

Module simserver.
(** A simulated emulator seen through both handles of the server: the
    backend works on its ledger, the blockchain reports its coverage, and a
    committed block counts one more hit for every file. *)
Record Node : Type := mkNode {
  ledger : sim.Sim;
  coverage : simchain.SimChain
}.

Definition onLedger (f : sim.Sim -> option sim.SimError * sim.Sim) (n : Node)
  : option sim.SimError * Node :=
  let (err, s) := f (ledger n) in (err, mkNode s (coverage n)).

Definition bump (c : simchain.SimChain) : simchain.SimChain :=
  simchain.mkSimChain (simchain.key c)
    (map (fun p => (fst p, snd p + 1)) (simchain.hits c)).

Definition commit (n : Node) : option sim.SimError * Node :=
  let (err, s) := sim.commit (ledger n) in
  (err, mkNode s (match err with
                  | None => bump (coverage n)
                  | Some _ => coverage n
                  end)).

Definition resetCoverage (n : Node) : Node :=
  mkNode (ledger n) (simchain.reset (coverage n)).

Definition collaborators : Collaborators := {|
  error := sim.SimError;
  Address := string;
  AccountStorage := string;
  Emulator := Node;
  backend_CommitBlock := commit;
  backend_GetLatestBlockHeader := fun n => sim.latestHeader (ledger n);
  backend_GetLatestBlock := fun n => sim.latestBlock (ledger n);
  backend_GetAccountStorage := fun a n => sim.storageOf a (ledger n);
  emulator_RollbackToBlockHeight := fun h => onLedger (sim.rollback h);
  emulator_Snapshots := fun n => sim.listSnapshots (ledger n);
  emulator_LoadSnapshot := fun name => onLedger (sim.load name);
  emulator_CreateSnapshot := fun name => onLedger (sim.create name);
  fvmerrors_IsAccountNotFoundError := sim.isAccountNotFound;
  flowsdk_HexToAddress := fun s => s;
  json_Marshal_BlockResponse := sim.marshalBlockResponse;
  json_Marshal_Snapshots := sim.marshalSnapshots;
  json_Marshal_AccountStorage := sim.marshalStorage
|}.

Definition blockchain : Blockchain Node := {|
  CoverageReport := list (string * Z);
  jsonError := unit;
  blockchain_ServiceKey := fun n => simchain.key (coverage n);
  blockchain_CoverageReport := fun n => simchain.report (coverage n);
  blockchain_ResetCoverageReport := resetCoverage;
  json_MarshalIndent_ConfigInfo := simchain.marshalConfig;
  json_Marshal_CoverageReport := simchain.marshalReport
|}.

Definition handle (n : Node) (i : Incoming) : Node :=
  stateAfter (@ServeHTTP collaborators blockchain n i).

Definition node0 : Node := mkNode (sim.engine0 sim.NoFault) simchain.chain0.
End simserver.

(** * Properties *)

(** ** Library facts *)

Lemma Contains_In (s : list string) (v : string) :
  slices.Contains s v = true <-> In v s.
Proof.
  induction s as [|x rest IH]; simpl.
  - split; [discriminate | tauto].
  - destruct (String.eqb v x) eqn:E.
    + apply String.eqb_eq in E. subst. tauto.
    + apply String.eqb_neq in E. rewrite IH. split; [tauto|].
      intros [->|Hin]; [congruence | assumption].
Qed.

Lemma Contains_not_In (s : list string) (v : string) :
  slices.Contains s v = false <-> ~ In v s.
Proof.
  rewrite <- Contains_In. destruct (slices.Contains s v); split; congruence.
Qed.

Lemma StatusCode_WriteHeader_fresh (code : Z) (hd : gmap string string) (b : string) :
  StatusCode (WriteHeader code (mkResponseWriter hd false 0 b)) = code.
Proof. reflexivity. Qed.

Lemma toInt_uint64 (h : Z) :
  machine.isUint64 h ->
  machine.toInt h = if h <? 2 ^ 63 then h else h - 2 ^ 64.
Proof.
  unfold machine.isUint64, machine.maxUint64, machine.toInt. intros Hh.
  rewrite Z.mod_small by lia. reflexivity.
Qed.



Lemma toInt_cases (h : Z) :
  machine.isUint64 h ->
  (h <= machine.maxInt -> machine.toInt h = h) /\
  (machine.maxInt < h -> machine.toInt h = h - 2 ^ 64).
Proof.
  intros Hh. rewrite toInt_uint64 by assumption.
  unfold machine.isUint64, machine.maxUint64, machine.maxInt in *.
  destruct (Z.ltb_spec h (2 ^ 63)); lia.
Qed.

Section Properties.
Context `{Collaborators}.

Ltac run :=
  unfold serve, mbind, mret, Handler_bind, Handler_ret, respond, query,
    mutate; cbn [fst snd engine invoked w app].

(** Closes a goal whose hypothesis equates two different status codes. *)
Ltac status_absurd Hs :=
  exfalso; unfold StatusCode, WriteHeader, HeaderSet, newResponseWriter in Hs;
  cbn [wroteHeader status] in Hs; vm_compute in Hs; discriminate Hs.

(** C1 (as amended).  A create-snapshot request whose name is not empty and
    occurs in the snapshot list the engine returns is answered with 409
    Conflict and an empty body; the only engine operation invoked is the
    listing, [CreateSnapshot] is not, and the engine state, hence its head
    and its snapshot list, is the one before the request. *)
Theorem SnapshotCreate_conflict (e : Emulator) (r : Request)
    (snapshots : list string) :
  FormValue r "name" <> "" ->
  emulator_Snapshots e = Ok snapshots ->
  In (FormValue r "name") snapshots ->
  let σ := serve SnapshotCreate e r in
  StatusCode (w σ) = http.StatusConflict /\
  written (w σ) = "" /\
  invoked σ = [CallSnapshots] /\
  ~ In (CallCreateSnapshot (FormValue r "name")) (invoked σ) /\
  engine σ = e /\
  backend_GetLatestBlock (engine σ) = backend_GetLatestBlock e /\
  emulator_Snapshots (engine σ) = Ok snapshots.
Proof.
  intros Hne Hl Hin. unfold SnapshotCreate. run.
  apply String.eqb_neq in Hne. rewrite Hne. run. rewrite Hl.
  apply Contains_In in Hin. rewrite Hin. run.
  repeat split; try reflexivity; try assumption.
  intros [Hc|[]]. discriminate Hc.
Qed.

(** C2.  A load-snapshot request whose name does not occur in the snapshot
    list the engine returns is answered with 404 Not Found; the only engine
    operation invoked is the listing, [LoadSnapshot] is not, and the engine
    state, hence its head, is the one before the request. *)
Theorem SnapshotJump_not_found (e : Emulator) (r : Request)
    (snapshots : list string) :
  emulator_Snapshots e = Ok snapshots ->
  ~ In (muxVar r "name") snapshots ->
  let σ := serve SnapshotJump e r in
  StatusCode (w σ) = http.StatusNotFound /\
  written (w σ) = "" /\
  invoked σ = [CallSnapshots] /\
  ~ In (CallLoadSnapshot (muxVar r "name")) (invoked σ) /\
  engine σ = e /\
  backend_GetLatestBlock (engine σ) = backend_GetLatestBlock e.
Proof.
  intros Hl Hin. unfold SnapshotJump. run. rewrite Hl.
  apply Contains_not_In in Hin. rewrite Hin. cbn [negb]. run.
  repeat split; try reflexivity.
  intros [Hc|[]]. discriminate Hc.
Qed.

(** What [latestBlockResponse] leaves behind when it answers 200 on a
    writer that has not sent its status line: the head was read from the
    current engine state and the body is the encoding of its height (as an
    [int]), its identifier and the name. *)
Lemma latestBlockResponse_ok (name : string) (σ : World) :
  wroteHeader (w σ) = false ->
  let σ' := snd (latestBlockResponse name σ) in
  StatusCode (w σ') = http.StatusOK ->
  exists block bytes,
    backend_GetLatestBlock (engine σ) = Ok block /\
    json_Marshal_BlockResponse
      (mkBlockResponse (machine.toInt (flow.Height (flow.BlockHeader block)))
         (flow.ID (flow.BlockHeader block)) name) = Ok bytes /\
    written (w σ') = String.append (written (w σ)) bytes /\
    invoked σ' = (invoked σ ++ [CallGetLatestBlock])%list /\
    engine σ' = engine σ.
Proof.
  intros Hfresh. unfold latestBlockResponse. run.
  destruct (backend_GetLatestBlock (engine σ)) as [block|err] eqn:Hb.
  - destruct (json_Marshal_BlockResponse _) as [bytes|err] eqn:Hm.
    + run. intros _. exists block, bytes. repeat split; try reflexivity.
      * assumption.
      * unfold Write, WriteHeader. rewrite Hfresh. reflexivity.
    + run. intros Hs. exfalso.
      unfold StatusCode, WriteHeader in Hs. rewrite Hfresh in Hs.
      cbn [wroteHeader status] in Hs. discriminate Hs.
  - run. intros Hs. exfalso.
    unfold StatusCode, WriteHeader in Hs. rewrite Hfresh in Hs.
    cbn [wroteHeader status] in Hs. discriminate Hs.
Qed.

(** C3 (as amended).  A create-snapshot or load-snapshot request that is
    answered with 200 invoked the listing, then the mutating operation, which
    succeeded, then the read of the head, in that order; the head was read
    from the engine state the mutation produced, and the body is the
    encoding of the block response made of that head's identifier, the
    snapshot name as context, and that head's height converted to [int]:
    the height itself when it is at most 2^63-1, the height minus 2^64
    above. *)
Theorem snapshot_success_reports_new_head (e : Emulator) (r : Request) :
  (let name := FormValue r "name" in
   let σ := serve SnapshotCreate e r in
   StatusCode (w σ) = http.StatusOK ->
   exists e' block height,
     emulator_CreateSnapshot name e = (None, e') /\
     invoked σ = [CallSnapshots; CallCreateSnapshot name; CallGetLatestBlock] /\
     engine σ = e' /\
     backend_GetLatestBlock e' = Ok block /\
     json_Marshal_BlockResponse
       (mkBlockResponse height (flow.ID (flow.BlockHeader block)) name)
     = Ok (written (w σ)) /\
     height = machine.toInt (flow.Height (flow.BlockHeader block)) /\
     (machine.isUint64 (flow.Height (flow.BlockHeader block)) ->
      (flow.Height (flow.BlockHeader block) <= machine.maxInt ->
       height = flow.Height (flow.BlockHeader block)) /\
      (machine.maxInt < flow.Height (flow.BlockHeader block) ->
       height = flow.Height (flow.BlockHeader block) - 2 ^ 64))) /\
  (let name := muxVar r "name" in
   let σ := serve SnapshotJump e r in
   StatusCode (w σ) = http.StatusOK ->
   exists e' block height,
     emulator_LoadSnapshot name e = (None, e') /\
     invoked σ = [CallSnapshots; CallLoadSnapshot name; CallGetLatestBlock] /\
     engine σ = e' /\
     backend_GetLatestBlock e' = Ok block /\
     json_Marshal_BlockResponse
       (mkBlockResponse height (flow.ID (flow.BlockHeader block)) name)
     = Ok (written (w σ)) /\
     height = machine.toInt (flow.Height (flow.BlockHeader block)) /\
     (machine.isUint64 (flow.Height (flow.BlockHeader block)) ->
      (flow.Height (flow.BlockHeader block) <= machine.maxInt ->
       height = flow.Height (flow.BlockHeader block)) /\
      (machine.maxInt < flow.Height (flow.BlockHeader block) ->
       height = flow.Height (flow.BlockHeader block) - 2 ^ 64))).
Proof.
  split.
  - unfold SnapshotCreate. run.
    destruct (String.eqb (FormValue r "name") "") eqn:Hn.
    { run. intros Hs. status_absurd Hs. }
    run. destruct (emulator_Snapshots e) as [snapshots|err] eqn:Hl.
    2:{ run. intros Hs. status_absurd Hs. }
    destruct (slices.Contains snapshots (FormValue r "name")) eqn:Hc.
    { run. intros Hs. status_absurd Hs. }
    run.
    destruct (emulator_CreateSnapshot (FormValue r "name") e) as [[err|] e'] eqn:Hm.
    { run. intros Hs. status_absurd Hs. }
    intros Hs.
    apply latestBlockResponse_ok in Hs; [|reflexivity].
    destruct Hs as (block & bytes & Hb & Hj & Hw & Hi & He).
    cbn [engine invoked w app written] in *.
    change (String.append "" bytes) with bytes in Hw. rewrite Hw.
    exists e', block, (machine.toInt (flow.Height (flow.BlockHeader block))).
    split; [reflexivity|]. split; [exact Hi|]. split; [exact He|].
    split; [exact Hb|]. split; [exact Hj|]. split; [reflexivity|].
    intros Hu. apply toInt_cases. exact Hu.
  - unfold SnapshotJump. run.
    destruct (emulator_Snapshots e) as [snapshots|err] eqn:Hl.
    2:{ run. intros Hs. status_absurd Hs. }
    destruct (slices.Contains snapshots (muxVar r "name")) eqn:Hc; cbn [negb].
    2:{ run. intros Hs. status_absurd Hs. }
    run.
    destruct (emulator_LoadSnapshot (muxVar r "name") e) as [[err|] e'] eqn:Hm.
    { run. intros Hs. status_absurd Hs. }
    intros Hs.
    apply latestBlockResponse_ok in Hs; [|reflexivity].
    destruct Hs as (block & bytes & Hb & Hj & Hw & Hi & He).
    cbn [engine invoked w app written] in *.
    change (String.append "" bytes) with bytes in Hw. rewrite Hw.
    exists e', block, (machine.toInt (flow.Height (flow.BlockHeader block))).
    split; [reflexivity|]. split; [exact Hi|]. split; [exact He|].
    split; [exact Hb|]. split; [exact Hj|]. split; [reflexivity|].
    intros Hu. apply toInt_cases. exact Hu.
Qed.

(** C4 (as amended).  A rollback request whose height is missing or does not
    parse is answered with 500 Internal Server Error and an empty body. *)
Theorem Rollback_malformed_status (e : Emulator) (r : Request) :
  malformedHeight r ->
  let σ := serve Rollback e r in
  StatusCode (w σ) = http.StatusInternalServerError /\
  written (w σ) = "".
Proof.
  intros Hbad. unfold Rollback. run.
  destruct (String.eqb (FormValue r "height") "") eqn:He.
  - run. split; reflexivity.
  - destruct (strconv.ParseUint (FormValue r "height")) as [height [err|]] eqn:Hp.
    + run. split; reflexivity.
    + exfalso. destruct Hbad as [Hbad|Hbad].
      * apply String.eqb_neq in He. contradiction.
      * rewrite Hp in Hbad. apply Hbad. reflexivity.
Qed.

(** C5.  A rollback request whose height is missing or does not parse
    invokes no engine operation at all, in particular not
    [RollbackToBlockHeight], and leaves the engine state as it was. *)
Theorem Rollback_malformed_no_engine_call (e : Emulator) (r : Request) :
  malformedHeight r ->
  let σ := serve Rollback e r in
  invoked σ = [] /\
  (forall height, ~ In (CallRollbackToBlockHeight height) (invoked σ)) /\
  engine σ = e.
Proof.
  intros Hbad. unfold Rollback. run.
  destruct (String.eqb (FormValue r "height") "") eqn:He.
  - run. repeat split; try reflexivity. intros height [].
  - destruct (strconv.ParseUint (FormValue r "height")) as [height [err|]] eqn:Hp.
    + run. repeat split; try reflexivity. intros height' [].
    + exfalso. destruct Hbad as [Hbad|Hbad].
      * apply String.eqb_neq in He. contradiction.
      * rewrite Hp in Hbad. apply Hbad. reflexivity.
Qed.

(** A rollback request whose height parses invokes [RollbackToBlockHeight]
    exactly once, with the parsed height. *)
Lemma Rollback_wellformed_invokes (e : Emulator) (r : Request) (height : Z) :
  FormValue r "height" <> "" ->
  strconv.ParseUint (FormValue r "height") = (height, None) ->
  invoked (serve Rollback e r) = [CallRollbackToBlockHeight height] /\
  engine (serve Rollback e r) = snd (emulator_RollbackToBlockHeight height e).
Proof.
  intros Hne Hp. unfold Rollback. run.
  apply String.eqb_neq in Hne. rewrite Hne, Hp. run.
  destruct (emulator_RollbackToBlockHeight height e) as [[err|] e']; run;
    split; reflexivity.
Qed.

(** C6 (as amended).  A create-snapshot request with an empty name is
    answered with 500 Internal Server Error and an empty body, and no engine
    operation is invoked. *)
Theorem SnapshotCreate_empty_name (e : Emulator) (r : Request) :
  FormValue r "name" = "" ->
  let σ := serve SnapshotCreate e r in
  StatusCode (w σ) = http.StatusInternalServerError /\
  written (w σ) = "" /\
  invoked σ = [] /\
  engine σ = e.
Proof.
  intros Hn. unfold SnapshotCreate. run. rewrite Hn.
  cbn [String.eqb]. run. repeat split; reflexivity.
Qed.

(** C7.  An account-storage request invokes the storage lookup for the
    decoded address.  When the lookup fails with an error that flow-go
    classifies as account-not-found the answer is 404; when it fails with any
    other error the answer is 500; when it succeeds the answer is 200 with the
    JSON encoding of the storage view, followed by a newline, as body (and
    500 should the view not encode). *)
Theorem Storage_status (e : Emulator) (r : Request) :
  let addr := flowsdk_HexToAddress (muxVar r "address") in
  let σ := serve Storage e r in
  invoked σ = [CallGetAccountStorage addr] /\
  engine σ = e /\
  (forall err, backend_GetAccountStorage addr e = Err err ->
     fvmerrors_IsAccountNotFoundError err = true ->
     StatusCode (w σ) = http.StatusNotFound /\ written (w σ) = "") /\
  (forall err, backend_GetAccountStorage addr e = Err err ->
     fvmerrors_IsAccountNotFoundError err = false ->
     StatusCode (w σ) = http.StatusInternalServerError /\ written (w σ) = "") /\
  (forall accountStorage bytes,
     backend_GetAccountStorage addr e = Ok accountStorage ->
     json_Marshal_AccountStorage accountStorage = Ok bytes ->
     StatusCode (w σ) = http.StatusOK /\
     written (w σ) = String.append bytes newline) /\
  (forall accountStorage err,
     backend_GetAccountStorage addr e = Ok accountStorage ->
     json_Marshal_AccountStorage accountStorage = Err err ->
     StatusCode (w σ) = http.StatusInternalServerError /\ written (w σ) = "").
Proof.
  unfold Storage. run.
  destruct (backend_GetAccountStorage _ e) as [accountStorage|err] eqn:Hs.
  - unfold Encode.
    destruct (json_Marshal_AccountStorage accountStorage) as [bytes|err] eqn:Hm;
      run; repeat split; intros; simplify_eq; try reflexivity;
      rewrite Hm in *; simplify_eq; reflexivity.
  - destruct (fvmerrors_IsAccountNotFoundError err) eqn:Hk; run;
      repeat split; intros; simplify_eq; try reflexivity; congruence.
Qed.




End Properties.

(** ** The statements at concrete requests *)

Lemma SnapshotCreate_conflict_witness :
  let e := sim.engine0 sim.NoFault in
  let r := sim.formRequest "name" "checkpoint" in
  FormValue r "name" <> "" /\
  emulator_Snapshots e = Ok ["checkpoint"] /\
  In (FormValue r "name") ["checkpoint"] /\
  StatusCode (w (serve SnapshotCreate e r)) = http.StatusConflict /\
  invoked (serve SnapshotCreate e r) = [CallSnapshots] /\
  engine (serve SnapshotCreate e r) = e.
Proof.
  assert (Hne : FormValue (sim.formRequest "name" "checkpoint") "name" <> "")
    by (vm_compute; discriminate).
  assert (Hin : In (FormValue (sim.formRequest "name" "checkpoint") "name")
                  ["checkpoint"])
    by (vm_compute; left; reflexivity).
  pose proof (SnapshotCreate_conflict (sim.engine0 sim.NoFault)
                (sim.formRequest "name" "checkpoint") ["checkpoint"]
                Hne eq_refl Hin) as (Hs & _ & Hi & _ & He & _).
  repeat split; assumption.
Defined.

Lemma SnapshotJump_not_found_witness :
  let e := sim.engine0 sim.NoFault in
  let r := sim.pathRequest "name" "missing" in
  emulator_Snapshots e = Ok ["checkpoint"] /\
  ~ In (muxVar r "name") ["checkpoint"] /\
  StatusCode (w (serve SnapshotJump e r)) = http.StatusNotFound /\
  invoked (serve SnapshotJump e r) = [CallSnapshots] /\
  engine (serve SnapshotJump e r) = e.
Proof.
  assert (Hin : ~ In (muxVar (sim.pathRequest "name" "missing") "name")
                    ["checkpoint"]).
  { vm_compute. intros [Hc|[]]. discriminate Hc. }
  pose proof (SnapshotJump_not_found (sim.engine0 sim.NoFault)
                (sim.pathRequest "name" "missing") ["checkpoint"]
                eq_refl Hin) as (Hs & _ & Hi & _ & He & _).
  repeat split; assumption.
Defined.

Lemma snapshot_success_reports_new_head_witness :
  let e := sim.engine0 sim.NoFault in
  let created := serve SnapshotCreate e (sim.formRequest "name" "a") in
  let jumped := serve SnapshotJump e (sim.pathRequest "name" "checkpoint") in
  (StatusCode (w created) = http.StatusOK /\
   sim.head e = 5 /\ sim.head (engine created) = 5 /\
   json_Marshal_BlockResponse (mkBlockResponse 5 "block-5" "a")
   = Ok (written (w created)) /\
   written (w created)
   = String.concat sim.quote
       ["{"; "height"; ":5,"; "blockId"; ":"; "block-5"; ",";
        "context"; ":"; "a"; "}"]) /\
  (StatusCode (w jumped) = http.StatusOK /\
   sim.head e = 5 /\ sim.head (engine jumped) = 3 /\
   json_Marshal_BlockResponse (mkBlockResponse 3 "block-3" "checkpoint")
   = Ok (written (w jumped)) /\
   written (w jumped)
   = String.concat sim.quote
       ["{"; "height"; ":3,"; "blockId"; ":"; "block-3"; ",";
        "context"; ":"; "checkpoint"; "}"]).
Proof.
  destruct (@snapshot_success_reports_new_head sim.collaborators
              (sim.engine0 sim.NoFault) (sim.formRequest "name" "a"))
    as [Hc _].
  destruct (@snapshot_success_reports_new_head sim.collaborators
              (sim.engine0 sim.NoFault) (sim.pathRequest "name" "checkpoint"))
    as [_ Hj].
  cbv zeta in Hc, Hj |- *.
  split.
  - destruct (Hc ltac:(vm_compute; reflexivity))
      as (e' & block & height & Hm & _ & He & Hb & Hbody & _ & Hfit).
    change (FormValue (sim.formRequest "name" "a") "name") with "a"
      in Hm, Hbody.
    rewrite He. vm_compute in Hm. injection Hm as <-.
    vm_compute in Hb. injection Hb as <-.
    cbn [flow.Height flow.ID flow.BlockHeader] in Hbody, Hfit.
    destruct (Hfit ltac:(vm_compute; split; discriminate)) as [Hsmall _].
    rewrite (Hsmall ltac:(vm_compute; discriminate)) in Hbody.
    split; [vm_compute; reflexivity|].
    split; [reflexivity|]. split; [reflexivity|].
    split; [exact Hbody|].
    vm_compute. reflexivity.
  - destruct (Hj ltac:(vm_compute; reflexivity))
      as (e' & block & height & Hm & _ & He & Hb & Hbody & _ & Hfit).
    change (muxVar (sim.pathRequest "name" "checkpoint") "name")
      with "checkpoint" in Hm, Hbody.
    rewrite He. vm_compute in Hm. injection Hm as <-.
    vm_compute in Hb. injection Hb as <-.
    cbn [flow.Height flow.ID flow.BlockHeader] in Hbody, Hfit.
    destruct (Hfit ltac:(vm_compute; split; discriminate)) as [Hsmall _].
    rewrite (Hsmall ltac:(vm_compute; discriminate)) in Hbody.
    split; [vm_compute; reflexivity|].
    split; [reflexivity|]. split; [reflexivity|].
    split; [exact Hbody|].
    vm_compute. reflexivity.
Defined.

Lemma Rollback_malformed_status_witness :
  let r := sim.formRequest "height" "12a" in
  malformedHeight r /\
  StatusCode (w (serve Rollback (sim.engine0 sim.NoFault) r))
  = http.StatusInternalServerError.
Proof.
  assert (Hbad : malformedHeight (sim.formRequest "height" "12a"))
    by (right; vm_compute; discriminate).
  split; [exact Hbad|].
  exact (proj1 (@Rollback_malformed_status sim.collaborators
                  (sim.engine0 sim.NoFault) _ Hbad)).
Defined.

Lemma Rollback_malformed_no_engine_call_witness :
  let r := sim.formRequest "height" "18446744073709551616" in
  malformedHeight r /\
  invoked (serve Rollback (sim.engine0 sim.NoFault) r) = [] /\
  engine (serve Rollback (sim.engine0 sim.NoFault) r)
  = sim.engine0 sim.NoFault.
Proof.
  assert (Hbad : malformedHeight
                   (sim.formRequest "height" "18446744073709551616"))
    by (right; vm_compute; discriminate).
  split; [exact Hbad|].
  destruct (@Rollback_malformed_no_engine_call sim.collaborators
              (sim.engine0 sim.NoFault) _ Hbad) as (Hi & _ & He).
  split; assumption.
Defined.

Lemma SnapshotCreate_empty_name_witness :
  let r := sim.emptyRequest in
  FormValue r "name" = "" /\
  StatusCode (w (serve SnapshotCreate (sim.engine0 sim.NoFault) r))
  = http.StatusInternalServerError /\
  invoked (serve SnapshotCreate (sim.engine0 sim.NoFault) r) = [].
Proof.
  assert (Hn : FormValue sim.emptyRequest "name" = "")
    by (vm_compute; reflexivity).
  split; [exact Hn|].
  destruct (@SnapshotCreate_empty_name sim.collaborators
              (sim.engine0 sim.NoFault) _ Hn) as (Hs & _ & Hi & _).
  split; assumption.
Defined.

Lemma Storage_status_witness :
  let e := sim.engine0 sim.NoFault in
  StatusCode (w (serve Storage e (sim.pathRequest "address" "02")))
  = http.StatusNotFound /\
  StatusCode (w (serve Storage (sim.engine0 sim.FailStorage)
                   (sim.pathRequest "address" "01")))
  = http.StatusInternalServerError /\
  StatusCode (w (serve Storage e (sim.pathRequest "address" "01")))
  = http.StatusOK /\
  written (w (serve Storage e (sim.pathRequest "address" "01")))
  = String.append (sim.quoted "{}") newline.
Proof.
  destruct (@Storage_status sim.collaborators (sim.engine0 sim.NoFault)
              (sim.pathRequest "address" "02")) as (_ & _ & Hnf & _).
  destruct (@Storage_status sim.collaborators (sim.engine0 sim.FailStorage)
              (sim.pathRequest "address" "01")) as (_ & _ & _ & Hie & _).
  destruct (@Storage_status sim.collaborators (sim.engine0 sim.NoFault)
              (sim.pathRequest "address" "01")) as (_ & _ & _ & _ & Hok & _).
  split; [exact (proj1 (Hnf sim.AccountNotFound
                          ltac:(vm_compute; reflexivity) eq_refl))|].
  split; [exact (proj1 (Hie (sim.Failure "storage")
                          ltac:(vm_compute; reflexivity) eq_refl))|].
  exact (Hok "{}" (sim.quoted "{}") ltac:(vm_compute; reflexivity)
           ltac:(vm_compute; reflexivity)).
Defined.



(** C10.  An answer of 500 to a create-snapshot or a load-snapshot request
    does not mean that the engine is as it was: there are engines and
    requests for which the mutation is invoked and succeeds, the answer is
    500 because the read of the head that follows fails, or because the
    block response does not encode, and the engine is left in the state the
    mutation produced, with the snapshot added or the head moved. *)
Theorem snapshot_internal_error_after_mutation :
  (exists (C : Collaborators) (e : Emulator) (r : Request) (e' : Emulator),
      emulator_CreateSnapshot (FormValue r "name") e = (None, e') /\
      is_ok (backend_GetLatestBlock e') = false /\
      invoked (serve SnapshotCreate e r)
      = [CallSnapshots; CallCreateSnapshot (FormValue r "name");
         CallGetLatestBlock] /\
      StatusCode (w (serve SnapshotCreate e r))
      = http.StatusInternalServerError /\
      engine (serve SnapshotCreate e r) = e' /\
      emulator_Snapshots e' <> emulator_Snapshots e) /\
  (exists (C : Collaborators) (e : Emulator) (r : Request) (e' : Emulator),
      emulator_LoadSnapshot (muxVar r "name") e = (None, e') /\
      is_ok (backend_GetLatestBlock e') = false /\
      invoked (serve SnapshotJump e r)
      = [CallSnapshots; CallLoadSnapshot (muxVar r "name");
         CallGetLatestBlock] /\
      StatusCode (w (serve SnapshotJump e r))
      = http.StatusInternalServerError /\
      engine (serve SnapshotJump e r) = e' /\
      e' <> e) /\
  (exists (C : Collaborators) (e : Emulator) (r : Request) (e' : Emulator)
          (block : flow.Block),
      emulator_CreateSnapshot (FormValue r "name") e = (None, e') /\
      backend_GetLatestBlock e' = Ok block /\
      StatusCode (w (serve SnapshotCreate e r))
      = http.StatusInternalServerError /\
      engine (serve SnapshotCreate e r) = e' /\
      emulator_Snapshots e' <> emulator_Snapshots e).
Proof.
  split; [|split].
  - exists sim.collaborators, (sim.engine0 sim.FailHead),
      (sim.formRequest "name" "a"),
      (sim.mkSim 5 [("checkpoint", 3); ("a", 5)] [("01", "{}")] sim.FailHead).
    repeat split; try (vm_compute; reflexivity).
    vm_compute. discriminate.
  - exists sim.collaborators, (sim.engine0 sim.FailHead),
      (sim.pathRequest "name" "checkpoint"),
      (sim.mkSim 3 [("checkpoint", 3)] [("01", "{}")] sim.FailHead).
    repeat split; try (vm_compute; reflexivity).
    vm_compute. discriminate.
  - exists sim.brokenEncoder, (sim.engine0 sim.NoFault),
      (sim.formRequest "name" "a"),
      (sim.mkSim 5 [("checkpoint", 3); ("a", 5)] [("01", "{}")] sim.NoFault),
      (flow.mkBlock (flow.mkHeader 5 (sim.blockID 5))).
    repeat split; try (vm_compute; reflexivity).
    vm_compute. discriminate.
Qed.

(** ** Where the specification and the handlers part *)

(** An empty name is rejected with 500 before the snapshot list is
    consulted, also when the engine lists a snapshot of that name: not every
    request whose name is in the list is answered with 409. *)
Lemma SnapshotCreate_listed_name_not_always_conflict :
  ~ (forall (C : Collaborators) (e : Emulator) (r : Request)
            (snapshots : list string),
        emulator_Snapshots e = Ok snapshots ->
        In (FormValue r "name") snapshots ->
        StatusCode (w (serve SnapshotCreate e r)) = http.StatusConflict).
Proof.
  intros Hall.
  specialize (Hall sim.collaborators (sim.mkSim 5 [("", 3)] [] sim.NoFault)
                sim.emptyRequest [""] eq_refl
                ltac:(vm_compute; left; reflexivity)).
  vm_compute in Hall. discriminate Hall.
Qed.

(** A snapshot created on a head of height 2^63 is answered with 200 and a
    body that gives the height as -2^63: the body of a successful snapshot
    request is not always the encoding of the head's own height, identifier
    and the name. *)
Lemma snapshot_body_height_not_head_height :
  ~ (forall (C : Collaborators) (e : Emulator) (r : Request),
        let σ := serve SnapshotCreate e r in
        StatusCode (w σ) = http.StatusOK ->
        exists block,
          backend_GetLatestBlock (engine σ) = Ok block /\
          json_Marshal_BlockResponse
            (mkBlockResponse (flow.Height (flow.BlockHeader block))
               (flow.ID (flow.BlockHeader block)) (FormValue r "name"))
          = Ok (written (w σ))).
Proof.
  intros Hall.
  destruct (Hall sim.collaborators (sim.mkSim (2 ^ 63) [] [] sim.NoFault)
              (sim.formRequest "name" "a") ltac:(vm_compute; reflexivity))
    as (block & Hb & Hj).
  vm_compute in Hb. injection Hb as <-.
  vm_compute in Hj. discriminate Hj.
Qed.

(** A rollback request without a height is answered with 500, which is not
    a status of the client-error class. *)
Lemma Rollback_malformed_not_client_error :
  ~ (forall (C : Collaborators) (e : Emulator) (r : Request),
        malformedHeight r ->
        http.isClientError (StatusCode (w (serve Rollback e r))) = true).
Proof.
  intros Hall.
  specialize (Hall sim.collaborators (sim.engine0 sim.NoFault)
                sim.emptyRequest ltac:(left; vm_compute; reflexivity)).
  vm_compute in Hall. discriminate Hall.
Qed.

(** A create-snapshot request with an empty name is answered with 500, not
    with 400. *)
Lemma SnapshotCreate_empty_name_not_bad_request :
  ~ (forall (C : Collaborators) (e : Emulator) (r : Request),
        FormValue r "name" = "" ->
        StatusCode (w (serve SnapshotCreate e r)) = http.StatusBadRequest).
Proof.
  intros Hall.
  specialize (Hall sim.collaborators (sim.engine0 sim.NoFault)
                sim.emptyRequest ltac:(vm_compute; reflexivity)).
  vm_compute in Hall. discriminate Hall.
Qed.


(** * Further properties of the handlers *)

(** ** The heights that [Rollback] accepts *)

Lemma isDigit_digitVal (c : ascii) :
  strconv.isDigit c = true -> 0 <= strconv.digitVal c <= 9.
Proof.
  unfold strconv.isDigit, strconv.digitVal. intros Hd.
  apply andb_true_iff in Hd. destruct Hd as [Hlo Hhi].
  apply Z.leb_le in Hlo. apply Z.leb_le in Hhi. lia.
Qed.

Lemma valueFrom_ge (s : string) (n : Z) :
  decimal.allDigits s = true -> n <= decimal.valueFrom s n \/ n < 0.
Proof.
  revert n. induction s as [|c rest IH]; intros n Hd; cbn in *.
  - left. lia.
  - apply andb_true_iff in Hd. destruct Hd as [Hc Hr].
    apply isDigit_digitVal in Hc.
    destruct (IH (n * 10 + strconv.digitVal c) Hr) as [Hle|Hneg]; lia.
Qed.

Lemma parseLoop_spec (s : string) (n v : Z) :
  0 <= n <= machine.maxUint64 ->
  strconv.parseLoop s n = (v, None) <->
  decimal.allDigits s = true /\
  decimal.valueFrom s n <= machine.maxUint64 /\
  v = decimal.valueFrom s n.
Proof.
  revert n. induction s as [|c rest IH]; intros n Hn; cbn [strconv.parseLoop
    decimal.allDigits decimal.valueFrom].
  - split.
    + intros Heq. injection Heq as <-. repeat split. lia.
    + intros (_ & _ & ->). reflexivity.
  - destruct (strconv.isDigit c) eqn:Hc; cbn [negb andb].
    2:{ split; [discriminate | intros (Hf & _); discriminate Hf]. }
    pose proof (isDigit_digitVal c Hc) as Hd.
    change strconv.cutoff with 1844674407370955162.
    change strconv.maxVal with 18446744073709551615.
    change (2 ^ 64) with 18446744073709551616.
    unfold machine.maxUint64 in *.
    change (2 ^ 64 - 1) with 18446744073709551615 in *.
    destruct (Z.leb_spec 1844674407370955162 n) as [Hcut|Hcut].
    { split; [discriminate|]. intros (Hr & Hle & _). exfalso.
      destruct (valueFrom_ge rest (n * 10 + strconv.digitVal c) Hr); lia. }
    destruct (Z_le_gt_dec (n * 10 + strconv.digitVal c) 18446744073709551615)
      as [Hfit|Hover].
    + rewrite Z.mod_small by lia.
      destruct (Z.ltb_spec (n * 10 + strconv.digitVal c) (n * 10)); [lia|].
      destruct (Z.ltb_spec 18446744073709551615 (n * 10 + strconv.digitVal c));
        [lia|]. cbn [orb].
      apply IH. unfold machine.maxUint64.
      change (2 ^ 64 - 1) with 18446744073709551615. lia.
    + replace ((n * 10 + strconv.digitVal c) mod 18446744073709551616)
        with (n * 10 + strconv.digitVal c - 18446744073709551616).
      2:{ apply Z.mod_unique with (q := 1); lia. }
      destruct (Z.ltb_spec (n * 10 + strconv.digitVal c - 18446744073709551616)
                  (n * 10)); [|lia]. cbn [orb].
      split; [discriminate|]. intros (Hr & Hle & _). exfalso.
      destruct (valueFrom_ge rest (n * 10 + strconv.digitVal c) Hr); lia.
Qed.

Lemma ParseUint_spec (s : string) (v : Z) :
  strconv.ParseUint s = (v, None) <->
  s <> "" /\ decimal.allDigits s = true /\
  decimal.value s <= machine.maxUint64 /\ v = decimal.value s.
Proof.
  unfold strconv.ParseUint, decimal.value.
  destruct (String.eqb s "") eqn:He.
  - apply String.eqb_eq in He. split; [discriminate|].
    intros (Hne & _). contradiction.
  - apply String.eqb_neq in He. rewrite parseLoop_spec.
    + tauto.
    + unfold machine.maxUint64. change (2 ^ 64 - 1) with 18446744073709551615.
      lia.
Qed.

Lemma allDigits_value_nonneg (s : string) (n : Z) :
  decimal.allDigits s = true -> 0 <= n -> 0 <= decimal.valueFrom s n.
Proof.
  intros Hd Hn. destruct (valueFrom_ge s n Hd); lia.
Qed.

Section MoreProperties.
Context `{Collaborators}.

Ltac run :=
  unfold serve, mbind, mret, Handler_bind, Handler_ret, respond, query,
    mutate; cbn [fst snd engine invoked w app].

Ltac crunch :=
  unfold CommitBlock, Rollback, SnapshotList, SnapshotJump, SnapshotCreate,
    Storage, latestBlockResponse, Encode; run;
  repeat (case_match; simplify_eq; run).

Ltac writer :=
  unfold StatusCode, Write, WriteHeader, HeaderSet, newResponseWriter;
  cbn [wroteHeader status written Header].

(** The statuses a handler can answer with: [CommitBlock], [Rollback] and
    [SnapshotList] answer 200 or 500, [SnapshotJump] and [Storage] 200, 404
    or 500, [SnapshotCreate] 200, 409 or 500.  No handler answers 400. *)
Theorem handler_status_range (e : Emulator) (r : Request) :
  Forall (fun h =>
            StatusCode (w (serve h e r)) = http.StatusOK \/
            StatusCode (w (serve h e r)) = http.StatusInternalServerError)
    [CommitBlock; Rollback; SnapshotList] /\
  Forall (fun h =>
            StatusCode (w (serve h e r)) = http.StatusOK \/
            StatusCode (w (serve h e r)) = http.StatusNotFound \/
            StatusCode (w (serve h e r)) = http.StatusInternalServerError)
    [SnapshotJump; Storage] /\
  (StatusCode (w (serve SnapshotCreate e r)) = http.StatusOK \/
   StatusCode (w (serve SnapshotCreate e r)) = http.StatusConflict \/
   StatusCode (w (serve SnapshotCreate e r)) = http.StatusInternalServerError).
Proof.
  repeat split; repeat apply List.Forall_cons; try apply List.Forall_nil;
    crunch; writer; auto.
Qed.

(** An answer other than 200 has no body: no handler describes the failure
    to the client. *)
Theorem error_response_has_no_body (e : Emulator) (r : Request) :
  Forall (fun h =>
            StatusCode (w (serve h e r)) = http.StatusOK \/
            written (w (serve h e r)) = "")
    backendHandlers.
Proof.
  repeat apply List.Forall_cons; try apply List.Forall_nil; crunch; writer; auto.
Qed.

(** Every answer of the six handlers declares its content type as
    application/json, whatever the status. *)
Theorem response_content_type (e : Emulator) (r : Request) :
  Forall (fun h =>
            Header (w (serve h e r)) !! "Content-Type"
            = Some "application/json")
    backendHandlers.
Proof.
  repeat apply List.Forall_cons; try apply List.Forall_nil; crunch; writer;
    apply lookup_insert_eq.
Qed.

(** No handler retries or chains engine mutations: a request invokes at most
    three engine operations, at most one of which is a mutation; and the
    engine state differs from the one before the request only if a mutation
    was invoked.  [SnapshotList] and [Storage] invoke no mutation. *)
Theorem at_most_one_mutation (e : Emulator) (r : Request) :
  Forall (fun h =>
            (length (invoked (serve h e r)) <= 3)%nat /\
            (length (filter (fun c => isMutation c = true)
                       (invoked (serve h e r))) <= 1)%nat /\
            (engine (serve h e r) = e \/
             Exists (fun c => isMutation c = true) (invoked (serve h e r))))
    backendHandlers /\
  Forall (fun h =>
            Forall (fun c => isMutation c = false) (invoked (serve h e r)) /\
            engine (serve h e r) = e)
    [SnapshotList; Storage].
Proof.
  split; repeat apply List.Forall_cons; try apply List.Forall_nil; crunch;
    cbn [length filter isMutation]; repeat split;
    repeat (rewrite ?filter_cons, ?filter_nil; cbn [isMutation]; case_decide);
    cbn [length]; try lia; try congruence;
    try (left; reflexivity);
    try (right; repeat constructor; fail);
    try (right; apply Exists_cons_tl; repeat constructor; fail);
    repeat constructor.
Qed.

(** [Rollback] hands a height to the engine exactly when the height
    parameter is a non-empty string of decimal digits whose value is at most
    2^64 - 1, and the height it hands over is that value: the engine's
    rollback is then the only operation invoked.  A sign, a space, a letter
    or an overflow keeps the request away from the engine. *)
Theorem Rollback_invokes_engine_iff (e : Emulator) (r : Request) (h : Z) :
  invoked (serve Rollback e r) = [CallRollbackToBlockHeight h] <->
  FormValue r "height" <> "" /\
  decimal.allDigits (FormValue r "height") = true /\
  decimal.value (FormValue r "height") <= machine.maxUint64 /\
  h = decimal.value (FormValue r "height").
Proof.
  rewrite <- ParseUint_spec. unfold Rollback. run.
  destruct (String.eqb (FormValue r "height") "") eqn:He.
  - run. apply String.eqb_eq in He. rewrite He. split; discriminate.
  - destruct (strconv.ParseUint (FormValue r "height")) as [v [err|]] eqn:Hp;
      run.
    + split; discriminate.
    + destruct (emulator_RollbackToBlockHeight v e) as [[err|] e']; run;
        (split; [intros Hi; injection Hi as ->; reflexivity
                |intros Hv; injection Hv as ->; reflexivity]).
Qed.

(** A rollback request whose height parses is answered according to the
    engine alone: 200 with an empty body when the engine accepts the height,
    500 with an empty body when it rejects it; the engine is left in the
    state its rollback produced, and the height handed over is a
    [uint64]. *)
Theorem Rollback_wellformed_outcome (e : Emulator) (r : Request) (h : Z) :
  FormValue r "height" <> "" ->
  strconv.ParseUint (FormValue r "height") = (h, None) ->
  let σ := serve Rollback e r in
  machine.isUint64 h /\
  invoked σ = [CallRollbackToBlockHeight h] /\
  engine σ = snd (emulator_RollbackToBlockHeight h e) /\
  written (w σ) = "" /\
  StatusCode (w σ)
  = match fst (emulator_RollbackToBlockHeight h e) with
    | None => http.StatusOK
    | Some _ => http.StatusInternalServerError
    end.
Proof.
  intros Hne Hp. split.
  - apply ParseUint_spec in Hp. destruct Hp as (_ & Hd & Hle & ->).
    split; [|exact Hle]. apply allDigits_value_nonneg; [exact Hd | lia].
  - unfold Rollback. run. apply String.eqb_neq in Hne. rewrite Hne, Hp. run.
    destruct (emulator_RollbackToBlockHeight h e) as [[err|] e']; run;
      repeat split; reflexivity.
Qed.

(** [SnapshotList] only reads: it invokes the listing and nothing else and
    leaves the engine as it was.  The body of a 200 answer is the encoding
    of the names exactly as the engine returned them, in that order, with no
    newline added; a failing listing or encoding gives 500 and no body. *)
Theorem SnapshotList_response (e : Emulator) (r : Request) :
  let σ := serve SnapshotList e r in
  invoked σ = [CallSnapshots] /\
  engine σ = e /\
  (StatusCode (w σ), written (w σ))
  = match emulator_Snapshots e with
    | Err _ => (http.StatusInternalServerError, "")
    | Ok snapshots =>
        match json_Marshal_Snapshots snapshots with
        | Err _ => (http.StatusInternalServerError, "")
        | Ok bytes => (http.StatusOK, bytes)
        end
    end.
Proof.
  unfold SnapshotList. run.
  destruct (emulator_Snapshots e) as [snapshots|err]; run.
  - destruct (json_Marshal_Snapshots snapshots) as [bytes|err]; run;
      repeat split; reflexivity.
  - repeat split; reflexivity.
Qed.

(** When the engine cannot list its snapshots, create-snapshot (with a
    non-empty name) and load-snapshot answer 500 with an empty body and stop:
    the mutation is not invoked and the engine is left as it was. *)
Theorem snapshot_list_failure (e : Emulator) (r : Request) (err : error) :
  emulator_Snapshots e = Err err ->
  (FormValue r "name" <> "" ->
   StatusCode (w (serve SnapshotCreate e r)) = http.StatusInternalServerError /\
   written (w (serve SnapshotCreate e r)) = "" /\
   invoked (serve SnapshotCreate e r) = [CallSnapshots] /\
   engine (serve SnapshotCreate e r) = e) /\
  (StatusCode (w (serve SnapshotJump e r)) = http.StatusInternalServerError /\
   written (w (serve SnapshotJump e r)) = "" /\
   invoked (serve SnapshotJump e r) = [CallSnapshots] /\
   engine (serve SnapshotJump e r) = e).
Proof.
  intros Hl. split.
  - intros Hne. apply String.eqb_neq in Hne. unfold SnapshotCreate. run.
    rewrite Hne. run. rewrite Hl. run. repeat split; reflexivity.
  - unfold SnapshotJump. run. rewrite Hl. run. repeat split; reflexivity.
Qed.

(** When the engine refuses to create or to load the snapshot, the handler
    answers 500 with an empty body and does not read the head: the log ends
    with the refused mutation, and the engine is in whatever state the
    refused operation left. *)
Theorem snapshot_mutation_failure (e e' : Emulator) (r : Request)
    (snapshots : list string) (err : error) :
  emulator_Snapshots e = Ok snapshots ->
  (FormValue r "name" <> "" ->
   ~ In (FormValue r "name") snapshots ->
   emulator_CreateSnapshot (FormValue r "name") e = (Some err, e') ->
   StatusCode (w (serve SnapshotCreate e r)) = http.StatusInternalServerError /\
   written (w (serve SnapshotCreate e r)) = "" /\
   invoked (serve SnapshotCreate e r)
   = [CallSnapshots; CallCreateSnapshot (FormValue r "name")] /\
   engine (serve SnapshotCreate e r) = e') /\
  (In (muxVar r "name") snapshots ->
   emulator_LoadSnapshot (muxVar r "name") e = (Some err, e') ->
   StatusCode (w (serve SnapshotJump e r)) = http.StatusInternalServerError /\
   written (w (serve SnapshotJump e r)) = "" /\
   invoked (serve SnapshotJump e r)
   = [CallSnapshots; CallLoadSnapshot (muxVar r "name")] /\
   engine (serve SnapshotJump e r) = e').
Proof.
  intros Hl. split.
  - intros Hne Hin Hm. apply String.eqb_neq in Hne.
    apply Contains_not_In in Hin. unfold SnapshotCreate. run.
    rewrite Hne. run. rewrite Hl, Hin. run. rewrite Hm. run.
    repeat split; reflexivity.
  - intros Hin Hm. apply Contains_In in Hin. unfold SnapshotJump. run.
    rewrite Hl, Hin. cbn [negb]. run. rewrite Hm. run.
    repeat split; reflexivity.
Qed.

(** On an engine that lists a snapshot once it has created it, a second
    create-snapshot request with the name of a successful first one is
    answered 409 and changes nothing; and a load-snapshot request for that
    name is not answered 404. *)
Theorem SnapshotCreate_then_again (e : Emulator) (r r' : Request) :
  (forall e', emulator_CreateSnapshot (FormValue r "name") e = (None, e') ->
              exists snapshots,
                emulator_Snapshots e' = Ok snapshots /\
                In (FormValue r "name") snapshots) ->
  StatusCode (w (serve SnapshotCreate e r)) = http.StatusOK ->
  muxVar r' "name" = FormValue r "name" ->
  let e1 := engine (serve SnapshotCreate e r) in
  StatusCode (w (serve SnapshotCreate e1 r)) = http.StatusConflict /\
  engine (serve SnapshotCreate e1 r) = e1 /\
  invoked (serve SnapshotCreate e1 r) = [CallSnapshots] /\
  StatusCode (w (serve SnapshotJump e1 r')) <> http.StatusNotFound.
Proof.
  intros Hcontract Hs Hname e1.
  assert (Hfirst : FormValue r "name" <> "" /\
                   emulator_CreateSnapshot (FormValue r "name") e = (None, e1)).
  { subst e1. revert Hs. unfold SnapshotCreate, latestBlockResponse. run.
    destruct (String.eqb (FormValue r "name") "") eqn:Hn; run.
    { intros Hs. exfalso. revert Hs. writer. discriminate. }
    apply String.eqb_neq in Hn.
    destruct (emulator_Snapshots e) as [l|err]; run.
    2:{ intros Hs. exfalso. revert Hs. writer. discriminate. }
    destruct (slices.Contains l (FormValue r "name")); run.
    { intros Hs. exfalso. revert Hs. writer. discriminate. }
    destruct (emulator_CreateSnapshot (FormValue r "name") e)
      as [[err|] e'] eqn:Hm; run.
    { intros Hs. exfalso. revert Hs. writer. discriminate. }
    intros _. split; [exact Hn|].
    destruct (backend_GetLatestBlock e') as [b|err]; run;
      [destruct (json_Marshal_BlockResponse _); run|]; reflexivity. }
  destruct Hfirst as [Hne Hm].
  destruct (Hcontract e1 Hm) as (l & Hl & Hin).
  apply String.eqb_neq in Hne. pose proof Hin as Hc.
  apply Contains_In in Hc.
  repeat split.
  - unfold SnapshotCreate. run. rewrite Hne. run. rewrite Hl, Hc. run.
    reflexivity.
  - unfold SnapshotCreate. run. rewrite Hne. run. rewrite Hl, Hc. run.
    reflexivity.
  - unfold SnapshotCreate. run. rewrite Hne. run. rewrite Hl, Hc. run.
    reflexivity.
  - unfold SnapshotJump, latestBlockResponse. run. rewrite Hl, Hname, Hc.
    cbn [negb]. run. repeat (case_match; simplify_eq; run); writer;
      discriminate.
Qed.

End MoreProperties.

(** ** Routing *)

Lemma cleanSegment_var (x : string) :
  mux.cleanSegment x = true ->
  negb (String.eqb x "") && negb (mux.hasSlash x) = true.
Proof.
  unfold mux.cleanSegment. intros Hc.
  repeat (apply andb_true_iff in Hc; destruct Hc as [Hc ?]).
  apply andb_true_iff. split; assumption.
Qed.

Ltac eqb_facts :=
  repeat match goal with
         | Hq : String.eqb _ _ = true |- _ =>
             apply String.eqb_eq in Hq; try subst
         | Hq : String.eqb _ _ = false |- _ => clear Hq
         end.

Ltac route_step :=
  cbn [mux.firstMatch mux.matchPath mux.matchMethod mux.template mux.methods
       mux.handler slices.Contains] in *.

Lemma routeOf_sound (i : Incoming) (h : mux.HandlerName) (r : Request) :
  routeOf i = Some (h, r) -> routed i h r.
Proof.
  destruct i as [method path values].
  unfold routed, routeOf, NewEmulatorAPIServer. cbn [Method Path Values].
  destruct (forallb mux.cleanSegment path) eqn:Hclean; [|discriminate].
    destruct path as [|a [|b [|c [|d path]]]]; route_step;
      repeat (case_match; route_step; try discriminate);
      intros Hr; simplify_eq; eqb_facts; cbn [forallb] in Hclean;
      repeat (apply andb_true_iff in Hclean; destruct Hclean as [? Hclean]);
      try discriminate; eauto 10.
Qed.

Lemma routeOf_complete (i : Incoming) (h : mux.HandlerName) (r : Request) :
  routed i h r -> routeOf i = Some (h, r).
Proof.
  destruct i as [method path values].
  unfold routed, routeOf, NewEmulatorAPIServer. cbn [Method Path Values].
  destruct h.
    all: try (intros (He1 & He2 & He3); subst; reflexivity).
    all: try (intros (He1 & He2); subst; reflexivity).
    + intros (-> & name & -> & Hc & ->). cbn [forallb].
      change (mux.cleanSegment "emulator") with true.
      change (mux.cleanSegment "snapshots") with true.
      rewrite Hc. cbn [andb]. route_step.
      cbn [String.eqb Ascii.eqb Bool.eqb]. route_step.
      rewrite (cleanSegment_var _ Hc). reflexivity.
    + intros (address & -> & Hc & ->). cbn [forallb].
      change (mux.cleanSegment "emulator") with true.
      change (mux.cleanSegment "storages") with true.
      rewrite Hc. cbn [andb]. route_step.
      cbn [String.eqb Ascii.eqb Bool.eqb]. route_step.
      rewrite (cleanSegment_var _ Hc). reflexivity.
Qed.

(** The route table read as a whole: which requests reach which handler,
    and with which route variables.  [CommitBlock], [Storage] and [Config]
    are served for every method, the other handlers for one method only.
    The two routes on /emulator/snapshots do not shadow each other, nor do
    /emulator/codeCoverage and /emulator/codeCoverage/reset; the value of a
    route variable is never empty. *)
Theorem route_table (i : Incoming) (h : mux.HandlerName) (r : Request) :
  routeOf i = Some (h, r) <-> routed i h r.
Proof.
  split; [apply routeOf_sound | apply routeOf_complete].
Qed.

Lemma cleanSegment_nonempty (x : string) :
  mux.cleanSegment x = true -> x <> "".
Proof.
  intros Hc ->. discriminate Hc.
Qed.

Section Routing.
Context `{Collaborators} `{Blockchain Emulator}.

Ltac run :=
  unfold serve, mbind, mret, Handler_bind, Handler_ret, respond, query,
    mutate; cbn [fst snd engine invoked w app].

Ltac crunch :=
  unfold CommitBlock, Rollback, SnapshotList, SnapshotJump, SnapshotCreate,
    Storage, latestBlockResponse, Encode; run;
  repeat (case_match; simplify_eq; run).

(** An engine mutation is invoked only by a request on the route registered
    for it: a commit on /emulator/newBlock, a rollback by POST on
    /emulator/rollback, a snapshot creation by POST on /emulator/snapshots
    and with a non-empty name, a snapshot load by PUT on
    /emulator/snapshots/{name}, for the name in the path, which is not
    empty. *)
Theorem mutations_by_route (e : Emulator) (i : Incoming) :
  Forall (fun call =>
            match call with
            | CallCommitBlock => Path i = ["emulator"; "newBlock"]
            | CallRollbackToBlockHeight _ =>
                Method i = "POST" /\ Path i = ["emulator"; "rollback"]
            | CallCreateSnapshot name =>
                Method i = "POST" /\ Path i = ["emulator"; "snapshots"] /\
                name <> ""
            | CallLoadSnapshot name =>
                Method i = "PUT" /\
                Path i = ["emulator"; "snapshots"; name] /\ name <> ""
            | _ => True
            end)
    (operations (ServeHTTP e i)).
Proof.
  unfold ServeHTTP.
  destruct (routeOf i) as [[h r]|] eqn:Hroute; [|apply List.Forall_nil].
  apply routeOf_sound in Hroute. unfold routed in Hroute.
  destruct h; cbn [viaBackend viaChain operations];
    try apply List.Forall_nil.
  - destruct Hroute as [Hp ->]. crunch; repeat constructor; assumption.
  - destruct Hroute as (Hm & Hp & ->). crunch; repeat constructor; assumption.
  - destruct Hroute as (Hm & Hp & ->). crunch; repeat constructor;
      try assumption;
      match goal with
      | Hq : String.eqb _ "" = false |- _ => apply String.eqb_neq in Hq; exact Hq
      end.
  - crunch; repeat constructor.
  - destruct Hroute as (Hm & name & Hp & Hc & ->).
    assert (Hv : muxVar (mkRequest (Values i) {[ "name" := name ]}) "name"
                 = name).
    { unfold muxVar. cbn [Vars]. rewrite lookup_singleton_eq. reflexivity. }
    crunch; rewrite ?Hv; repeat constructor; try assumption;
      apply (cleanSegment_nonempty _ Hc).
  - crunch; repeat constructor.
Qed.

(** The state of the emulator changes only on the routes made for it.
    After any request it is as it was, unless the request is on
    /emulator/newBlock, where it is the state the commit left; is a POST on
    /emulator/rollback or on /emulator/snapshots; is a PUT on
    /emulator/snapshots/{name}; or is a PUT on /emulator/codeCoverage/reset,
    where it is the state the coverage reset left.  In particular listing
    snapshots, reading storage, the configuration or the coverage report,
    and a request the router answers itself, change nothing.  (Reads of the
    engine and of the blockchain are functions of the state, as the
    interfaces declare them.) *)
Theorem state_changes_by_route (e : Emulator) (i : Incoming) :
  stateAfter (ServeHTTP e i) = e \/
  (Path i = ["emulator"; "newBlock"] /\
   stateAfter (ServeHTTP e i) = snd (backend_CommitBlock e)) \/
  (Method i = "POST" /\ Path i = ["emulator"; "rollback"]) \/
  (Method i = "POST" /\ Path i = ["emulator"; "snapshots"]) \/
  (Method i = "PUT" /\
   exists name, Path i = ["emulator"; "snapshots"; name]) \/
  (Method i = "PUT" /\ Path i = ["emulator"; "codeCoverage"; "reset"] /\
   stateAfter (ServeHTTP e i) = blockchain_ResetCoverageReport e).
Proof.
  unfold ServeHTTP.
  destruct (routeOf i) as [[h r]|] eqn:Hroute; [|left; reflexivity].
  apply routeOf_sound in Hroute. unfold routed in Hroute.
  destruct h; cbn [viaBackend viaChain stateAfter].
  - destruct Hroute as [Hp _]. right; left. split; [exact Hp|].
    crunch; reflexivity.
  - destruct Hroute as (Hm & Hp & _). right; right; left. split; assumption.
  - destruct Hroute as (Hm & Hp & _).
    right; right; right; left. split; assumption.
  - left. crunch; reflexivity.
  - destruct Hroute as (Hm & name & Hp & _).
    right; right; right; right; left. split; [assumption|].
    exists name. exact Hp.
  - left. crunch; reflexivity.
  - left. reflexivity.
  - left. unfold serveChain, CodeCoverage. cbn [blockchain].
    case_match; reflexivity.
  - destruct Hroute as (Hm & Hp & _).
    right; right; right; right; right.
    split; [assumption|]. split; [assumption|]. reflexivity.
Qed.

(** A request that reaches [SnapshotJump] or [Storage] through the router
    carries the path segment as the value of its route variable, and that
    value is not empty: the handlers never see an empty name or address. *)
Theorem routed_variable_nonempty (i : Incoming) (r : Request) :
  (routeOf i = Some (mux.hSnapshotJump, r) ->
   muxVar r "name" <> "" /\
   Path i = ["emulator"; "snapshots"; muxVar r "name"]) /\
  (routeOf i = Some (mux.hStorage, r) ->
   muxVar r "address" <> "" /\
   Path i = ["emulator"; "storages"; muxVar r "address"]).
Proof.
  split; intros Hroute; apply routeOf_sound in Hroute; unfold routed in Hroute.
  - destruct Hroute as (_ & name & Hp & Hc & ->). unfold muxVar. cbn [Vars].
    rewrite lookup_singleton_eq. cbn [default]. split; [|exact Hp].
    apply (cleanSegment_nonempty _ Hc).
  - destruct Hroute as (address & Hp & Hc & ->). unfold muxVar. cbn [Vars].
    rewrite lookup_singleton_eq. cbn [default]. split; [|exact Hp].
    apply (cleanSegment_nonempty _ Hc).
Qed.

End Routing.

(** ** The blockchain handlers *)

Section ChainProperties.
Context {chain : Type} `{Blockchain chain}.

(** [Config] always answers 200 and leaves the blockchain alone; it is the
    one handler that declares no content type.  The error of the encoder is
    dropped: when the configuration does not encode, the answer is still 200
    with an empty body. *)
Theorem Config_response (c : chain) (r : Request) :
  let σ := serveChain Config c r in
  StatusCode (cw σ) = http.StatusOK /\
  Header (cw σ) !! "Content-Type" = None /\
  blockchain σ = c /\
  written (cw σ)
  = match json_MarshalIndent_ConfigInfo (blockchain_ServiceKey c) with
    | Ok s => s
    | Err _ => ""
    end.
Proof.
  unfold serveChain, Config. cbn [blockchain cw].
  repeat split.
Qed.

(** Resetting the coverage report answers 200 with an empty body whatever
    the blockchain; a coverage request served after it reports on the
    blockchain the reset left, changes nothing, and answers 200 with the
    encoded report and a newline, or 500 with no body when the report does
    not encode.  Both declare application/json. *)
Theorem coverage_reset_then_read (c : chain) (r r' : Request) :
  let σ1 := serveChain ResetCodeCoverage c r in
  let σ2 := serveChain CodeCoverage (blockchain σ1) r' in
  StatusCode (cw σ1) = http.StatusOK /\
  written (cw σ1) = "" /\
  blockchain σ1 = blockchain_ResetCoverageReport c /\
  blockchain σ2 = blockchain_ResetCoverageReport c /\
  Header (cw σ1) !! "Content-Type" = Some "application/json" /\
  Header (cw σ2) !! "Content-Type" = Some "application/json" /\
  (StatusCode (cw σ2), written (cw σ2))
  = match json_Marshal_CoverageReport
            (blockchain_CoverageReport (blockchain_ResetCoverageReport c)) with
    | Ok b => (http.StatusOK, String.append b newline)
    | Err _ => (http.StatusInternalServerError, "")
    end.
Proof.
  unfold serveChain, ResetCodeCoverage, CodeCoverage. cbn [blockchain cw].
  destruct (json_Marshal_CoverageReport _) as [b|err]; cbn [blockchain cw];
    repeat split; apply lookup_insert_eq.
Qed.

End ChainProperties.

(** ** The further statements at concrete requests *)

Lemma Rollback_invokes_engine_iff_witness :
  let r := sim.formRequest "height" "0042" in
  FormValue r "height" <> "" /\
  decimal.allDigits (FormValue r "height") = true /\
  decimal.value (FormValue r "height") <= machine.maxUint64 /\
  invoked (serve Rollback (sim.engine0 sim.NoFault) r)
  = [CallRollbackToBlockHeight 42].
Proof.
  assert (Hne : FormValue (sim.formRequest "height" "0042") "height" <> "")
    by (vm_compute; discriminate).
  assert (Hd : decimal.allDigits
                 (FormValue (sim.formRequest "height" "0042") "height") = true)
    by (vm_compute; reflexivity).
  assert (Hle : decimal.value
                  (FormValue (sim.formRequest "height" "0042") "height")
                <= machine.maxUint64)
    by (vm_compute; discriminate).
  split; [exact Hne|]. split; [exact Hd|]. split; [exact Hle|].
  apply (proj2 (@Rollback_invokes_engine_iff sim.collaborators
                  (sim.engine0 sim.NoFault)
                  (sim.formRequest "height" "0042") 42)).
  split; [exact Hne|]. split; [exact Hd|]. split; [exact Hle|].
  vm_compute. reflexivity.
Defined.

Lemma Rollback_wellformed_outcome_witness :
  let r := sim.formRequest "height" "3" in
  let e := sim.engine0 sim.NoFault in
  FormValue r "height" <> "" /\
  strconv.ParseUint (FormValue r "height") = (3, None) /\
  StatusCode (w (serve Rollback e r)) = http.StatusOK /\
  written (w (serve Rollback e r)) = "" /\
  sim.head (engine (serve Rollback e r)) = 3 /\
  StatusCode (w (serve Rollback e (sim.formRequest "height" "6")))
  = http.StatusInternalServerError.
Proof.
  assert (Hne : FormValue (sim.formRequest "height" "3") "height" <> "")
    by (vm_compute; discriminate).
  assert (Hne' : FormValue (sim.formRequest "height" "6") "height" <> "")
    by (vm_compute; discriminate).
  destruct (@Rollback_wellformed_outcome sim.collaborators
              (sim.engine0 sim.NoFault) (sim.formRequest "height" "3") 3 Hne
              ltac:(vm_compute; reflexivity)) as (_ & _ & He & Hw & Hs).
  destruct (@Rollback_wellformed_outcome sim.collaborators
              (sim.engine0 sim.NoFault) (sim.formRequest "height" "6") 6 Hne'
              ltac:(vm_compute; reflexivity)) as (_ & _ & _ & _ & Hs').
  split; [exact Hne|]. split; [vm_compute; reflexivity|].
  split; [exact Hs|]. split; [exact Hw|].
  split; [rewrite He; vm_compute; reflexivity | exact Hs'].
Defined.

Lemma snapshot_list_failure_witness :
  let e := sim.engine0 sim.FailSnapshots in
  let r := sim.formRequest "name" "a" in
  emulator_Snapshots e = Err (sim.Failure "snapshots") /\
  FormValue r "name" <> "" /\
  StatusCode (w (serve SnapshotCreate e r)) = http.StatusInternalServerError /\
  engine (serve SnapshotCreate e r) = e /\
  StatusCode (w (serve SnapshotJump e (sim.pathRequest "name" "checkpoint")))
  = http.StatusInternalServerError.
Proof.
  assert (Hne : FormValue (sim.formRequest "name" "a") "name" <> "")
    by (vm_compute; discriminate).
  destruct (@snapshot_list_failure sim.collaborators
              (sim.engine0 sim.FailSnapshots) (sim.formRequest "name" "a")
              (sim.Failure "snapshots") eq_refl) as [Hc _].
  destruct (@snapshot_list_failure sim.collaborators
              (sim.engine0 sim.FailSnapshots)
              (sim.pathRequest "name" "checkpoint")
              (sim.Failure "snapshots") eq_refl) as [_ Hj].
  destruct (Hc Hne) as (Hs & _ & _ & He).
  destruct Hj as (Hs' & _).
  repeat split; assumption.
Defined.

Lemma snapshot_mutation_failure_witness :
  let e := sim.engine0 sim.NoFault in
  let r := sim.formRequest "name" "a" in
  let r' := sim.pathRequest "name" "checkpoint" in
  StatusCode (w (@serve simfail.collaborators SnapshotCreate e r))
  = http.StatusInternalServerError /\
  @invoked simfail.collaborators (@serve simfail.collaborators SnapshotCreate e r)
  = [CallSnapshots; CallCreateSnapshot "a"] /\
  StatusCode (w (@serve simfail.collaborators SnapshotJump e r'))
  = http.StatusInternalServerError /\
  @invoked simfail.collaborators (@serve simfail.collaborators SnapshotJump e r')
  = [CallSnapshots; CallLoadSnapshot "checkpoint"].
Proof.
  destruct (@snapshot_mutation_failure simfail.collaborators
              (sim.engine0 sim.NoFault) (sim.engine0 sim.NoFault)
              (sim.formRequest "name" "a") ["checkpoint"]
              (sim.Failure "create") eq_refl) as [Hc _].
  destruct (@snapshot_mutation_failure simfail.collaborators
              (sim.engine0 sim.NoFault) (sim.engine0 sim.NoFault)
              (sim.pathRequest "name" "checkpoint") ["checkpoint"]
              (sim.Failure "load") eq_refl) as [_ Hj].
  assert (Hne : FormValue (sim.formRequest "name" "a") "name" <> "")
    by (vm_compute; discriminate).
  assert (Hnin : ~ In (FormValue (sim.formRequest "name" "a") "name")
                     ["checkpoint"]).
  { vm_compute. intros [Hq|[]]. discriminate Hq. }
  assert (Hin : In (muxVar (sim.pathRequest "name" "checkpoint") "name")
                  ["checkpoint"])
    by (vm_compute; left; reflexivity).
  destruct (Hc Hne Hnin eq_refl) as (Hs & _ & Hi & _).
  destruct (Hj Hin eq_refl) as (Hs' & _ & Hi' & _).
  repeat split; assumption.
Defined.

Lemma SnapshotCreate_then_again_witness :
  let e := sim.engine0 sim.NoFault in
  let r := sim.formRequest "name" "a" in
  let r' := sim.pathRequest "name" "a" in
  StatusCode (w (serve SnapshotCreate e r)) = http.StatusOK /\
  muxVar r' "name" = FormValue r "name" /\
  StatusCode (w (serve SnapshotCreate (engine (serve SnapshotCreate e r)) r))
  = http.StatusConflict /\
  StatusCode (w (serve SnapshotJump (engine (serve SnapshotCreate e r)) r'))
  <> http.StatusNotFound.
Proof.
  assert (Hs : StatusCode
                 (w (serve SnapshotCreate (sim.engine0 sim.NoFault)
                       (sim.formRequest "name" "a"))) = http.StatusOK)
    by (vm_compute; reflexivity).
  assert (Hn : muxVar (sim.pathRequest "name" "a") "name"
               = FormValue (sim.formRequest "name" "a") "name")
    by (vm_compute; reflexivity).
  destruct (@SnapshotCreate_then_again sim.collaborators
              (sim.engine0 sim.NoFault) (sim.formRequest "name" "a")
              (sim.pathRequest "name" "a")) as (Hc & _ & _ & Hj);
    try assumption.
  { intros e' He'. vm_compute in He'. injection He' as <-.
    exists ["checkpoint"; "a"]. split; [reflexivity|].
    vm_compute. right. left. reflexivity. }
  repeat split; assumption.
Defined.

Lemma route_table_witness :
  let i := mkIncoming "PUT" ["emulator"; "snapshots"; "checkpoint"] ∅ in
  routed i mux.hSnapshotJump (sim.pathRequest "name" "checkpoint") /\
  routeOf i = Some (mux.hSnapshotJump, sim.pathRequest "name" "checkpoint").
Proof.
  assert (Hr : routed (mkIncoming "PUT" ["emulator"; "snapshots"; "checkpoint"] ∅)
                 mux.hSnapshotJump (sim.pathRequest "name" "checkpoint")).
  { split; [reflexivity|]. exists "checkpoint". repeat split. }
  split; [exact Hr|].
  exact (proj2 (route_table _ _ _) Hr).
Defined.

Lemma state_changes_by_route_witness :
  let n1 := simserver.handle simserver.node0
              (mkIncoming "POST" ["emulator"; "newBlock"] ∅) in
  let n2 := simserver.handle n1
              (mkIncoming "PUT" ["emulator"; "codeCoverage"; "reset"] ∅) in
  let n3 := simserver.handle n2
              (mkIncoming "GET" ["emulator"; "codeCoverage"] ∅) in
  n1 = snd (simserver.commit simserver.node0) /\
  n2 = simserver.resetCoverage n1 /\
  n3 = n2 /\
  simchain.hits (simserver.coverage simserver.node0)
  = [("a.cdc", 3); ("b.cdc", 1)] /\
  simchain.hits (simserver.coverage n1) = [("a.cdc", 4); ("b.cdc", 2)] /\
  simchain.hits (simserver.coverage n2) = [("a.cdc", 0); ("b.cdc", 0)] /\
  sim.head (simserver.ledger n2) = 6.
Proof.
  cbv zeta. unfold simserver.handle.
  pose proof (@state_changes_by_route simserver.collaborators
                simserver.blockchain simserver.node0
                (mkIncoming "POST" ["emulator"; "newBlock"] ∅)) as H1.
  assert (E1 : stateAfter (@ServeHTTP simserver.collaborators
                             simserver.blockchain simserver.node0
                             (mkIncoming "POST" ["emulator"; "newBlock"] ∅))
               = snd (simserver.commit simserver.node0)).
  { destruct H1 as [Hsame|[[_ Hc]|[[_ Hp]|[[_ Hp]|[[Hm _]|[Hm _]]]]]];
      [vm_compute in Hsame; discriminate Hsame | exact Hc
      | discriminate Hp | discriminate Hp
      | discriminate Hm | discriminate Hm]. }
  rewrite E1.
  pose proof (@state_changes_by_route simserver.collaborators
                simserver.blockchain (snd (simserver.commit simserver.node0))
                (mkIncoming "PUT" ["emulator"; "codeCoverage"; "reset"] ∅))
    as H2.
  assert (E2 : stateAfter (@ServeHTTP simserver.collaborators
                             simserver.blockchain
                             (snd (simserver.commit simserver.node0))
                             (mkIncoming "PUT"
                                ["emulator"; "codeCoverage"; "reset"] ∅))
               = simserver.resetCoverage (snd (simserver.commit simserver.node0))).
  { destruct H2 as [Hsame|[[Hp _]|[[_ Hp]|[[_ Hp]|[[_ [name Hp]]|(_ & _ & Hr)]]]]];
      [vm_compute in Hsame; discriminate Hsame | discriminate Hp
      | discriminate Hp | discriminate Hp | discriminate Hp | exact Hr]. }
  rewrite E2.
  pose proof (@state_changes_by_route simserver.collaborators
                simserver.blockchain
                (simserver.resetCoverage (snd (simserver.commit simserver.node0)))
                (mkIncoming "GET" ["emulator"; "codeCoverage"] ∅)) as H3.
  assert (E3 : stateAfter (@ServeHTTP simserver.collaborators
                             simserver.blockchain
                             (simserver.resetCoverage
                                (snd (simserver.commit simserver.node0)))
                             (mkIncoming "GET" ["emulator"; "codeCoverage"] ∅))
               = simserver.resetCoverage (snd (simserver.commit simserver.node0))).
  { destruct H3 as [Hsame|[[Hp _]|[[Hm _]|[[Hm _]|[[Hm _]|[Hm _]]]]]];
      [exact Hsame | discriminate Hp
      | discriminate Hm | discriminate Hm | discriminate Hm | discriminate Hm]. }
  rewrite E3.
  split; [reflexivity|]. split; [reflexivity|]. split; [reflexivity|].
  vm_compute. repeat split.
Defined.

Lemma routed_variable_nonempty_witness :
  let i := mkIncoming "GET" ["emulator"; "storages"; "01"] ∅ in
  routeOf i = Some (mux.hStorage, sim.pathRequest "address" "01") /\
  muxVar (sim.pathRequest "address" "01") "address" <> "".
Proof.
  assert (Hr : routeOf (mkIncoming "GET" ["emulator"; "storages"; "01"] ∅)
               = Some (mux.hStorage, sim.pathRequest "address" "01"))
    by (vm_compute; reflexivity).
  split; [exact Hr|].
  exact (proj1 (proj2 (routed_variable_nonempty _ _) Hr)).
Defined.
